(** * The weather bot of test21.py: a model of its code and its properties

    The program is a Telegram bot: a handler takes a city from a chat
    update, [get_weather] asks OpenWeatherMap for it and turns every
    outcome of the request into a display string, and the handler sends
    that string back.

    Python values are modelled as the interpreter has them: a [str] is a
    sequence of code points, an [int] is unbounded, the object returned
    by [r.json()] is a tree of dicts, lists and scalars, an exception is
    a value that unwinds the computation until a matching [except]
    clause.  What the program does to the outside (the HTTP request, log
    records, chat replies) is recorded, in order, in a trace. *)

From Stdlib Require Import ZArith String Ascii Lia SpecFloat.
From stdpp Require Import gmap list.

Set Warnings "-register-all".

(** ** Python strings *)

Module PyStr.

(** A Python [str]: the sequence of its Unicode code points. *)
Definition pystr : Type := list N.

(** String literals of the source are written [u "..."]: the UTF-8 bytes
    of the literal, decoded to code points. *)
Fixpoint utf8_decode (bs : list N) : pystr :=
  match bs with
  | [] => []
  | b :: rest =>
      if (b <? 128)%N then b :: utf8_decode rest
      else if (b <? 224)%N then
        match rest with
        | c1 :: rest1 => ((b - 192) * 64 + (c1 - 128))%N :: utf8_decode rest1
        | _ => []
        end
      else if (b <? 240)%N then
        match rest with
        | c1 :: c2 :: rest2 =>
            ((b - 224) * 4096 + (c1 - 128) * 64 + (c2 - 128))%N
              :: utf8_decode rest2
        | _ => []
        end
      else
        match rest with
        | c1 :: c2 :: c3 :: rest3 =>
            ((b - 240) * 262144 + (c1 - 128) * 4096
             + (c2 - 128) * 64 + (c3 - 128))%N :: utf8_decode rest3
        | _ => []
        end
  end.

Definition u (s : string) : pystr :=
  utf8_decode (map N_of_ascii (list_ascii_of_string s)).

(** The newline of the f-string template, and the characters that the
    formatting of numbers needs. *)
Definition nl : pystr := [10%N].
Definition zero_char : N := 48%N.
Definition colon : N := 58%N.

(** [str.isspace] on one code point: the characters that [str.strip()]
    removes (bidirectional class WS, B or S, or category Zs). *)
Definition is_whitespace (c : N) : bool :=
  ((9 <=? c) && (c <=? 13) || (28 <=? c) && (c <=? 32)
   || (c =? 133) || (c =? 160) || (c =? 5760)
   || (8192 <=? c) && (c <=? 8202)
   || (c =? 8232) || (c =? 8233) || (c =? 8239) || (c =? 8287)
   || (c =? 12288))%N.

Fixpoint lstrip (s : pystr) : pystr :=
  match s with
  | [] => []
  | c :: rest => if is_whitespace c then lstrip rest else s
  end.

Definition rstrip (s : pystr) : pystr := reverse (lstrip (reverse s)).

(** [s.strip()] *)
Definition strip (s : pystr) : pystr := rstrip (lstrip s).

(** [sep.join(xs)] *)
Fixpoint join (sep : pystr) (xs : list pystr) : pystr :=
  match xs with
  | [] => []
  | x :: rest =>
      match rest with
      | [] => x
      | _ :: _ => x ++ sep ++ join sep rest
      end
  end.

(** [str(n)] for an [int]: decimal digits, most significant first. *)
Fixpoint decimal_digits (fuel : nat) (n : N) (acc : pystr) : pystr :=
  match fuel with
  | O => acc
  | S fuel' =>
      let acc' := (zero_char + n mod 10)%N :: acc in
      if (n <? 10)%N then acc' else decimal_digits fuel' (n / 10)%N acc'
  end.

Definition decimal_N (n : N) : pystr :=
  decimal_digits (S (N.to_nat (N.log2 n))) n [].

Definition decimal (z : Z) : pystr :=
  if (z <? 0)%Z then u "-" ++ decimal_N (Z.to_N (- z))
  else decimal_N (Z.to_N z).

(** The C format [%02d] that [strftime] uses for [%H] and [%M]. *)
Definition fmt02 (z : Z) : pystr :=
  let s := decimal z in
  replicate (2 - length s) zero_char ++ s.

End PyStr.
Export PyStr.

(** ** The objects of [r.json()], responses and exceptions *)

(** The value that [json.loads] builds: [None], [bool], [int], [float]
    (an IEEE binary64), [str], [list], or a [dict] with string keys. *)
Inductive json : Type :=
| JNull
| JBool (b : bool)
| JInt (z : Z)
| JFloat (f : spec_float)
| JStr (s : pystr)
| JList (items : list json)
| JDict (d : gmap pystr json).

(** A subscript: the source uses the string keys and the index [0]. *)
Inductive key : Type :=
| KStr (s : pystr)
| KInt (i : Z).

(** What [get_weather] reads of a [requests.Response]. [body] is [None]
    when the content is not JSON ([r.json()] raises). *)
Record response : Type := Response {
  status_code : Z;
  reason : pystr;
  url : pystr;
  body : option json
}.

(** Exceptions, all of them subclasses of [Exception].  [HTTPError] is
    [requests.exceptions.HTTPError], which only [raise_for_status]
    raises, with its message and the response; [RequestFailure] stands
    for what [requests.get] itself can raise (ConnectionError, Timeout,
    TooManyRedirects, InvalidURL...); [TimestampError] for the
    OverflowError, OSError or ValueError of [datetime.fromtimestamp];
    [TelegramError] for what an awaited call of the Bot API can raise
    (BadRequest, NetworkError, TimedOut, Forbidden...). *)
Inductive exn : Type :=
| HTTPError (msg : pystr) (r : response)
| RequestFailure (detail : pystr)
| JSONDecodeError
| KeyError (k : key)
| IndexError
| TypeError
| AttributeError
| TimestampError
| UnboundLocalError (name : pystr)
| ValueError (msg : pystr)
| TelegramError (msg : pystr).

(** [isinstance(e, requests.exceptions.HTTPError)] *)
Definition is_HTTPError (e : exn) : bool :=
  match e with
  | HTTPError _ _ => true
  | _ => false
  end.

(** What [requests.get] does with a request: it raises, or it returns a
    response (of any status: the status is checked by the caller). *)
Inductive get_outcome : Type :=
| GetRaises (detail : pystr)
| GetReturns (r : response).

(** ** What the program does to the outside *)

Inductive log_level : Type := ERROR | INFO.

(** [ReplyKeyboardMarkup(keyboard, resize_keyboard, one_time_keyboard)],
    each button given by its text. *)
Record ReplyKeyboardMarkup : Type := {
  keyboard : list (list pystr);
  resize_keyboard : bool;
  one_time_keyboard : bool
}.

(** [HttpGet] is a call of [requests.get], [ReplyText] a call of
    [reply_text] (the reply handed to the Bot API, whether or not the
    call then returns), [Log] a record of the module's logger. *)
Inductive event : Type :=
| HttpGet (target : pystr) (params : list (pystr * pystr))
| Log (lvl : log_level) (msg : pystr)
| ReplyText (text : pystr) (reply_markup : option ReplyKeyboardMarkup)
    (parse_mode : pystr)
| ThreadStart (target : pystr) (daemon : bool)
| RunPolling (token : pystr).

(** The state a handler runs in: what has happened so far, oldest
    first, and the session's [context.user_data] dict. *)
Record world : Type := World {
  trace : list event;
  user_data : gmap pystr pystr
}.

Definition emit_event (e : event) (w : world) : world :=
  {| trace := trace w ++ [e]; user_data := user_data w |}.

(** ** Computations that may raise *)

Inductive result (A : Type) : Type :=
| Ok (a : A)
| Raise (e : exn).
Arguments Ok {A} a.
Arguments Raise {A} e.

(** A statement sequence over a state [S]: it ends with a value or with
    an exception, and with the state its effects have produced. *)
Definition M (S A : Type) : Type := S -> result A * S.

Definition ret {S A} (a : A) : M S A := fun s => (Ok a, s).

Definition raise {S A} (e : exn) : M S A := fun s => (Raise e, s).

Definition bind {S A B} (c : M S A) (k : A -> M S B) : M S B :=
  fun s =>
    match c s with
    | (Ok a, s') => k a s'
    | (Raise e, s') => (Raise e, s')
    end.

(** [try: c  except ... as e: handler e].  An exception raised by the
    handler itself is not caught again. *)
Definition try_except {S A} (c : M S A) (handler : exn -> M S A) : M S A :=
  fun s =>
    match c s with
    | (Ok a, s') => (Ok a, s')
    | (Raise e, s') => handler e s'
    end.

(** A pure operation that may raise, used as a statement. *)
Definition eval {S A} (x : result A) : M S A := fun s => (x, s).

Declare Scope py_scope.
Delimit Scope py_scope with py.
Notation "x <- c1 ;; c2" := (bind c1 (fun x => c2))
  (at level 100, c1 at next level, right associativity) : py_scope.
Notation "c1 ;; c2" := (bind c1 (fun _ => c2))
  (at level 100, right associativity) : py_scope.
Open Scope py_scope.

(** ** Subscripts and methods on JSON objects *)

(** [o[k]] *)
Definition getitem (o : json) (k : key) : result json :=
  match o, k with
  | JDict d, KStr s =>
      match d !! s with
      | Some v => Ok v
      | None => Raise (KeyError k)
      end
  | JDict _, KInt _ => Raise (KeyError k)
  | JList items, KInt i =>
      let j := if (i <? 0)%Z then (Z.of_nat (length items) + i)%Z else i in
      if (j <? 0)%Z then Raise IndexError
      else match items !! Z.to_nat j with
           | Some v => Ok v
           | None => Raise IndexError
           end
  | JStr s, KInt i =>
      let j := if (i <? 0)%Z then (Z.of_nat (length s) + i)%Z else i in
      if (j <? 0)%Z then Raise IndexError
      else match s !! Z.to_nat j with
           | Some c => Ok (JStr [c])
           | None => Raise IndexError
           end
  | _, _ => Raise TypeError
  end.

(** [o.get(k, default)]: only a dict has the method. *)
Definition get_default (o : json) (k : pystr) (default : json) : result json :=
  match o with
  | JDict d =>
      match d !! k with
      | Some v => Ok v
      | None => Ok default
      end
  | _ => Raise AttributeError
  end.

(** [r.raise_for_status()] of the requests library: the message is set
    for a client error (400 to 499) and for a server error (500 to 599),
    and the call raises when the message is not empty. *)
Definition http_error_msg (r : response) : pystr :=
  if ((400 <=? status_code r) && (status_code r <? 500))%Z then
    decimal (status_code r) ++ u " Client Error: " ++ reason r
    ++ u " for url: " ++ url r
  else if ((500 <=? status_code r) && (status_code r <? 600))%Z then
    decimal (status_code r) ++ u " Server Error: " ++ reason r
    ++ u " for url: " ++ url r
  else [].

Definition raise_for_status (r : response) : result unit :=
  match http_error_msg r with
  | _ :: _ => Raise (HTTPError (http_error_msg r) r)
  | [] => Ok tt
  end.

(** [r.json()] *)
Definition json_of (r : response) : result json :=
  match body r with
  | Some data => Ok data
  | None => Raise JSONDecodeError
  end.

(** ** The platform the program runs on

    What the interpreter, the libraries and the network decide, and the
    source does not: the outcome of the HTTP request, the text [str(e)]
    of an exception of the interpreter or of a library (that of an
    [HTTPError] is its message), the [repr] of a float and of a list or
    dict, the whole seconds [datetime.fromtimestamp] takes from a float
    ([None] where it raises), the local zone's offset from UTC in
    seconds at an instant, whether the platform can convert an
    instant to a local time with a year from 1 to 9999, and what the
    Bot API does with a reply: [None] when the awaited call returns,
    the message of the error when it raises. *)
Record platform : Type := Platform {
  requests_get : pystr -> list (pystr * pystr) -> get_outcome;
  exc_str : exn -> pystr;
  repr_float : spec_float -> pystr;
  repr_container : json -> pystr;
  float_timestamp : spec_float -> option Z;
  utcoffset : Z -> Z;
  localtime_ok : Z -> bool;
  reply_fails : pystr -> option ReplyKeyboardMarkup -> pystr -> option pystr
}.

(** ** The weather lookup *)

Section Lookup.

Context (py : platform).

(** The module global read from the environment at import. *)
Context (API_KEY : pystr).

(** [f"{e}"] for an exception. *)
Definition exception_text (e : exn) : pystr :=
  match e with
  | HTTPError msg _ => msg
  | _ => exc_str py e
  end.

(** [f"{v}"], that is [str(v)]. *)
Definition format_value (v : json) : pystr :=
  match v with
  | JNull => u "None"
  | JBool true => u "True"
  | JBool false => u "False"
  | JInt z => decimal z
  | JFloat f => repr_float py f
  | JStr s => s
  | JList _ | JDict _ => repr_container py v
  end.

(** The fields of a [datetime] that [%H:%M] prints. *)
Record datetime : Type := { hour : Z; minute : Z }.

(** The number [datetime.fromtimestamp] accepts: an [int] (a [bool] is
    one), or a [float]. *)
Definition timestamp_seconds (v : json) : result Z :=
  match v with
  | JInt z => Ok z
  | JBool b => Ok (if b then 1 else 0)%Z
  | JFloat f =>
      match float_timestamp py f with
      | Some z => Ok z
      | None => Raise TimestampError
      end
  | _ => Raise TypeError
  end.

(** [datetime.fromtimestamp(v)]: the local wall-clock time. *)
Definition fromtimestamp (v : json) : result datetime :=
  match timestamp_seconds v with
  | Ok t =>
      if localtime_ok py t then
        let local := (t + utcoffset py t)%Z in
        Ok {| hour := (local / 3600) mod 24; minute := (local / 60) mod 60 |}
      else Raise TimestampError
  | Raise e => Raise e
  end.

(** [dt.strftime("%H:%M")] *)
Definition strftime_HM (dt : datetime) : pystr :=
  fmt02 (hour dt) ++ [colon] ++ fmt02 (minute dt).

(** [requests.get(target, params=params)]: one request goes out, then
    the call returns the response or raises. *)
Definition http_get (target : pystr) (params : list (pystr * pystr))
  : M world response :=
  fun w =>
    let w' := emit_event (HttpGet target params) w in
    match requests_get py target params with
    | GetRaises detail => (Raise (RequestFailure detail), w')
    | GetReturns r => (Ok r, w')
    end.

(** [logger.error(msg)] and [logger.info(msg)]; the root level is INFO,
    so both are emitted. *)
Definition logger_error (msg : pystr) : M world unit :=
  fun w => (Ok tt, emit_event (Log ERROR msg) w).

Definition logger_info (msg : pystr) : M world unit :=
  fun w => (Ok tt, emit_event (Log INFO msg) w).

(** The frame of one call of [get_weather]: the local [r], unbound until
    the assignment has run, on top of the world. *)
Record frame : Type := Frame {
  r_var : option response;
  outer : world
}.

Definition in_world {A} (c : M world A) : M frame A :=
  fun fr =>
    match c (outer fr) with
    | (res, w') => (res, {| r_var := r_var fr; outer := w' |})
    end.

(** [r = ...] *)
Definition assign_r (r : response) : M frame unit :=
  fun fr => (Ok tt, {| r_var := Some r; outer := outer fr |}).

(** Reading [r]: an unbound local raises. *)
Definition load_r : M frame response :=
  fun fr =>
    match r_var fr with
    | Some r => (Ok r, fr)
    | None => (Raise (UnboundLocalError (u "r")), fr)
    end.

Definition weather_url : pystr :=
  u "https://api.openweathermap.org/data/2.5/weather".

Definition weather_params (city : pystr) : list (pystr * pystr) :=
  [ (u "q", city);
    (u "appid", API_KEY);
    (u "units", u "metric");
    (u "lang", u "ru") ].

(** The body of the [try] block. *)
Definition get_weather_try (city : pystr) : M frame pystr :=
  r <- in_world (http_get weather_url (weather_params city)) ;;
  assign_r r ;;
  eval (raise_for_status r) ;;
  data <- eval (json_of r) ;;
  weather <- eval (getitem data (KStr (u "weather"))) ;;
  weather0 <- eval (getitem weather (KInt 0)) ;;
  description <- eval (getitem weather0 (KStr (u "description"))) ;;
  main1 <- eval (getitem data (KStr (u "main"))) ;;
  temp <- eval (getitem main1 (KStr (u "temp"))) ;;
  main2 <- eval (getitem data (KStr (u "main"))) ;;
  humidity <- eval (getitem main2 (KStr (u "humidity"))) ;;
  main3 <- eval (getitem data (KStr (u "main"))) ;;
  pressure <- eval (get_default main3 (u "grnd_level") (JStr (u "н/д"))) ;;
  wind <- eval (getitem data (KStr (u "wind"))) ;;
  wind_speed <- eval (getitem wind (KStr (u "speed"))) ;;
  sys <- eval (getitem data (KStr (u "sys"))) ;;
  sunset_timestamp <- eval (getitem sys (KStr (u "sunset"))) ;;
  dt <- eval (fromtimestamp sunset_timestamp) ;;
  let sunset_time := strftime_HM dt in
  let weather_info :=
    u "🌤 <b>Погода в " ++ city ++ u "</b>" ++ nl
    ++ u "Описание: " ++ format_value description ++ nl
    ++ u "Температура: " ++ format_value temp ++ u " °C" ++ nl
    ++ u "Влажность: " ++ format_value humidity ++ u " %" ++ nl
    ++ u "Давление: " ++ format_value pressure ++ u " гПа" ++ nl
    ++ u "Скорость ветра: " ++ format_value wind_speed ++ u " м/с" ++ nl
    ++ u "Закат: " ++ sunset_time in
  ret weather_info.

(** The two [except] clauses: the first that matches runs. *)
Definition get_weather_except (city : pystr) (e : exn) : M frame pystr :=
  if is_HTTPError e then
    r <- load_r ;;
    if (status_code r =? 404)%Z then
      ret (u "❌ Город '" ++ city ++ u "' не найден.")
    else
      (in_world (logger_error
         (u "HTTP ошибка при запросе погоды для " ++ city ++ u ": "
          ++ exception_text e)) ;;
       ret (u "❌ Ошибка API: " ++ exception_text e))
  else
    (in_world (logger_error
       (u "Неожиданная ошибка при запросе погоды для " ++ city ++ u ": "
        ++ exception_text e)) ;;
     ret (u "❌ Произошла ошибка: " ++ exception_text e)).

Definition get_weather (city : pystr) : M world pystr :=
  fun w =>
    match try_except (get_weather_try city) (get_weather_except city)
            {| r_var := None; outer := w |} with
    | (res, fr) => (res, outer fr)
    end.

End Lookup.

(** ** The chat handlers *)

(** What the handlers read of an update: the text of the message and
    the id of the user it comes from. *)
Record Update : Type := {
  message_text : pystr;
  effective_user_id : Z
}.

(** What the handlers read of the callback context: [context.args], the
    words after the command.  [context.user_data] is the session dict
    of the world. *)
Record CallbackContext : Type := {
  args : list pystr
}.

Definition DEFAULT_CITIES : list pystr :=
  [u "Москва"; u "Санкт-Петербург"; u "Сочи"; u "Игора"].

Definition DEFAULT_CITY : pystr := u "Санкт-Петербург".

Definition HTML : pystr := u "HTML".

(** How an awaited [reply_text] ends: it returns, or it raises the
    error of the Bot API. *)
Definition reply_result (py : platform) (text : pystr)
    (reply_markup : option ReplyKeyboardMarkup) (parse_mode : pystr)
  : result unit :=
  match reply_fails py text reply_markup parse_mode with
  | Some msg => Raise (TelegramError msg)
  | None => Ok tt
  end.

(** [await update.message.reply_text(text, reply_markup=..., parse_mode=...)]:
    the reply is handed to the Bot API, and the call returns or raises;
    the handlers do not guard it. *)
Definition reply_text (py : platform) (text : pystr)
    (reply_markup : option ReplyKeyboardMarkup) (parse_mode : pystr)
  : M world unit :=
  fun w =>
    (reply_result py text reply_markup parse_mode,
     emit_event (ReplyText text reply_markup parse_mode) w).

(** [context.user_data[k] = v] *)
Definition user_data_set (k v : pystr) : M world unit :=
  fun w => (Ok tt, {| trace := trace w; user_data := <[k := v]> (user_data w) |}).

Section Handlers.

Context (py : platform) (API_KEY : pystr).

Definition start (update : Update) (context : CallbackContext) : M world unit :=
  let keyboard := map (fun city => [city]) DEFAULT_CITIES in
  let reply_markup :=
    {| keyboard := keyboard;
       resize_keyboard := true;
       one_time_keyboard := false |} in
  reply_text py (u "Привет! Выберите город из списка или введите свой:")
    (Some reply_markup) HTML.

Definition help_command (update : Update) (context : CallbackContext)
  : M world unit :=
  let help_text :=
    u "🤖 <b>Помощник погодного бота</b>" ++ nl ++ nl
    ++ u "Доступные команды:" ++ nl
    ++ u "/start — открыть клавиатуру с городами" ++ nl
    ++ u "/help — показать эту справку" ++ nl
    ++ u "/weather &lt;город&gt; — погода в указанном городе" ++ nl ++ nl
    ++ u "Вы также можете просто написать название города." ++ nl ++ nl
    ++ u "Пример:" ++ nl
    ++ u "/weather Москва" in
  reply_text py help_text None HTML.

Definition weather (update : Update) (context : CallbackContext)
  : M world unit :=
  match args context with
  | _ :: _ =>
      let city := join (u " ") (args context) in
      weather_info <- get_weather py API_KEY city ;;
      reply_text py weather_info None HTML
  | [] =>
      reply_text py (u "❌ Укажите город после команды /weather") None HTML
  end.

Definition handle_message (update : Update) (context : CallbackContext)
  : M world unit :=
  let city := strip (message_text update) in
  weather_info <- get_weather py API_KEY city ;;
  reply_text py weather_info None HTML ;;
  user_data_set (u "last_city") city ;;
  logger_info
    (u "Пользователь " ++ decimal (effective_user_id update)
     ++ u " запросил погоду для " ++ city).

End Handlers.

(** ** Start-up *)

(** [load_dotenv()]: the variables of the .env file are added to the
    environment; a variable that is already set keeps its value. *)
Definition load_dotenv (dotenv environ : gmap pystr pystr) : gmap pystr pystr :=
  environ ∪ dotenv.

(** [os.getenv(name)] *)
Definition getenv (environ : gmap pystr pystr) (name : pystr) : option pystr :=
  environ !! name.

(** The two module globals, once the checks have passed. *)
Record secrets : Type := {
  API_KEY : pystr;
  TG_KEY : pystr
}.

(** [not x] for a value of [os.getenv]: true for [None] and for the
    empty string. *)
Definition is_falsy (x : option pystr) : bool :=
  match x with
  | None | Some [] => true
  | Some (_ :: _) => false
  end.

(** The module level, down to the two checks. *)
Definition load_secrets (dotenv environ : gmap pystr pystr) : result secrets :=
  let environ := load_dotenv dotenv environ in
  let api_key := getenv environ (u "API_KEY") in
  let tg_key := getenv environ (u "TG_KEY") in
  if is_falsy api_key then
    Raise (ValueError (u "Не найден API_KEY в переменных окружения (.env)"))
  else if is_falsy tg_key then
    Raise (ValueError (u "Не найден TG_KEY в переменных окружения (.env)"))
  else
    Ok {| API_KEY := default [] api_key; TG_KEY := default [] tg_key |}.

(** An update as the dispatcher classifies it: a command with its
    arguments, or a text message that is not a command. *)
Inductive incoming : Type :=
| Command (name : pystr) (update : Update) (context : CallbackContext)
| Text (update : Update) (context : CallbackContext).

(** The handlers registered by [main], in order; the first that matches
    runs.  An update that no handler matches is dropped. *)
Definition dispatch (py : platform) (cfg : secrets) (i : incoming) : M world unit :=
  match i with
  | Command name update context =>
      if decide (name = u "start") then start py update context
      else if decide (name = u "help") then help_command py update context
      else if decide (name = u "weather") then
        weather py (API_KEY cfg) update context
      else ret tt
  | Text update context => handle_message py (API_KEY cfg) update context
  end.

(** The user an update comes from. *)
Definition sender (i : incoming) : Z :=
  match i with
  | Command _ update _ => effective_user_id update
  | Text update _ => effective_user_id update
  end.

(** [application.user_data]: a dict per user id; a user that has none
    yet gets an empty one. *)
Definition session_of (sessions : gmap Z (gmap pystr pystr)) (uid : Z)
  : gmap pystr pystr :=
  default ∅ (sessions !! uid).

(** A callback run for an update of user [uid]: [context.user_data] is
    that user's dict, and what the callback leaves in it is the user's
    dict from then on. *)
Definition in_session (uid : Z) (sessions : gmap Z (gmap pystr pystr))
    (c : M world unit) : M world (gmap Z (gmap pystr pystr)) :=
  fun w =>
    match c {| trace := trace w; user_data := session_of sessions uid |} with
    | (Ok _, w') => (Ok (<[uid := user_data w']> sessions), w')
    | (Raise e, w') => (Raise e, w')
    end.

(** The loop of [application.run_polling()] over the updates that
    arrive: each is dispatched in turn, in the session of its sender;
    the framework catches the exception of a handler (it logs it with
    its own logger, which the trace does not record), so that the loop
    goes on. *)
Fixpoint process_updates (py : platform) (cfg : secrets)
    (updates : list incoming) (sessions : gmap Z (gmap pystr pystr))
  : M world (gmap Z (gmap pystr pystr)) :=
  match updates with
  | [] => ret sessions
  | i :: rest =>
      sessions' <- in_session (sender i) sessions
                     (try_except (dispatch py cfg i) (fun _ => ret tt)) ;;
      process_updates py cfg rest sessions'
  end.

(** [application.run_polling()]: no persistence is configured, so the
    bot starts without sessions. *)
Definition run_polling (py : platform) (cfg : secrets) (updates : list incoming)
  : M world unit :=
  (fun w => (Ok tt, emit_event (RunPolling (TG_KEY cfg)) w)) ;;
  process_updates py cfg updates ∅ ;;
  ret tt.

(** [main()]: the Flask thread is started, then the bot polls. *)
Definition main (py : platform) (cfg : secrets) (updates : list incoming)
  : M world unit :=
  (fun w => (Ok tt, emit_event (ThreadStart (u "run_flask") true) w)) ;;
  logger_info (u "Запуск Telegram-бота...") ;;
  run_polling py cfg updates.

(** The script, run as [__main__]: the module level, then [main()]. *)
Definition script (py : platform) (dotenv environ : gmap pystr pystr)
    (updates : list incoming) : M world unit :=
  cfg <- eval (load_secrets dotenv environ) ;;
  main py cfg updates.

(** ** The health endpoint *)

(** The two routes: the body and the status each returns. *)
Definition home : pystr * Z := (u "Бот запущен и работает!", 200%Z).

Definition health : json * Z :=
  (JDict {[ u "status" := JStr (u "healthy") ]}, 200%Z).

(** What the Flask thread does to the outside: it logs, and it starts
    the server on a host and a port. *)
Inductive flask_event : Type :=
| FlaskLog (lvl : log_level) (msg : pystr)
| AppRun (host : pystr) (port : Z).

(** [run_flask()], over [os.environ] as the thread finds it.  [int_of_str]
    is Python's [int(s)] on a string, which raises where the string is
    not an integer literal; the default is already an [int]. *)
Definition run_flask (int_of_str : pystr -> result Z)
    (environ : gmap pystr pystr) : M (list flask_event) unit :=
  port <- eval (match environ !! u "PORT" with
                | Some s => int_of_str s
                | None => Ok 10000%Z
                end) ;;
  (fun t => (Ok tt, t ++ [FlaskLog INFO
                            (u "Запуск Flask на порту " ++ decimal port)])) ;;
  (fun t => (Ok tt, t ++ [AppRun (u "0.0.0.0") port])).

(** ** Sample inputs *)

Module Demo.

(** A report as OpenWeatherMap sends it, without [grnd_level]. *)
Definition report_weather0 : gmap pystr json :=
  list_to_map [(u "description", JStr (u "ясно"))].

Definition report_main : gmap pystr json :=
  list_to_map [(u "temp", JInt 12); (u "humidity", JInt 80)].

Definition report_wind : gmap pystr json :=
  list_to_map [(u "speed", JInt 3)].

Definition report_sys : gmap pystr json :=
  list_to_map [(u "sunset", JInt 1700000000)].

Definition report_data : gmap pystr json :=
  list_to_map
    [ (u "weather", JList [JDict report_weather0]);
      (u "main", JDict report_main);
      (u "wind", JDict report_wind);
      (u "sys", JDict report_sys) ].

Definition report : json := JDict report_data.

Definition answer (status : Z) (phrase : pystr) (content : option json)
  : response :=
  {| status_code := status;
     reason := phrase;
     url := u "https://api.openweathermap.org/data/2.5/weather?q=%D0%A1%D0%BE%D1%87%D0%B8&appid=0123456789abcdef&units=metric&lang=ru";
     body := content |}.

Definition builtin_text (e : exn) : pystr :=
  match e with
  | RequestFailure detail => detail
  | JSONDecodeError => u "Expecting value: line 1 column 1 (char 0)"
  | ValueError msg => msg
  | _ => u "error"
  end.

(** A platform on which every request has the given outcome, in the
    zone UTC+3, and every reply goes through. *)
Definition platform_with (outcome : get_outcome) : platform :=
  {| requests_get := fun _ _ => outcome;
     exc_str := builtin_text;
     repr_float := fun _ => u "0.0";
     repr_container := fun _ => u "[]";
     float_timestamp := fun _ => None;
     utcoffset := fun _ => 10800%Z;
     localtime_ok := fun _ => true;
     reply_fails := fun _ _ _ => None |}.

Definition key : pystr := u "0123456789abcdef".

Definition sochi : pystr := u "Сочи".

Definition idle : world := {| trace := []; user_data := ∅ |}.

End Demo.

(** ** Reading a trace *)

(** The HTTP requests among some events, the texts of the replies, and
    the messages logged at a level, each in order. *)
Definition http_requests (evs : list event)
  : list (pystr * list (pystr * pystr)) :=
  omap (fun e => match e with
                 | HttpGet target params => Some (target, params)
                 | _ => None
                 end) evs.

Definition replies (evs : list event) : list pystr :=
  omap (fun e => match e with
                 | ReplyText text _ _ => Some text
                 | _ => None
                 end) evs.

Definition logged (lvl : log_level) (evs : list event) : list pystr :=
  omap (fun e => match e, lvl with
                 | Log ERROR msg, ERROR => Some msg
                 | Log INFO msg, INFO => Some msg
                 | _, _ => None
                 end) evs.

(** A step of the [try] block that leaves the frame alone and raises no
    [HTTPError]: what holds of every statement after [raise_for_status]. *)
Definition quiet {A} (fr : frame) (out : result A * frame) : Prop :=
  out.2 = fr /\ forall e, out.1 = Raise e -> is_HTTPError e = false.

(** The value of a string of decimal digits, most significant first. *)
Definition digits_value (s : pystr) : N :=
  foldl (fun acc c => (10 * acc + (c - zero_char))%N) 0%N s.

(** The integer that a decimal numeral denotes: an optional minus sign,
    then digits. *)
Definition int_value (s : pystr) : Z :=
  match s with
  | 45%N :: digits => (- Z.of_N (digits_value digits))%Z
  | _ => Z.of_N (digits_value s)
  end.

(** Every character of a string is white space. *)
Definition all_whitespace (s : pystr) : Prop :=
  Forall (fun c => is_whitespace c = true) s.

(** A word as [str.split()] yields it: not empty, no white space. *)
Definition is_word (s : pystr) : Prop :=
  s <> [] /\ Forall (fun c => is_whitespace c = false) s.

(** [city] is [text] without the white space around it: a prefix and
    a suffix of white space are gone, and no white space is left at
    either end. *)
Definition is_trimmed_of (text city : pystr) : Prop :=
  (exists pre post,
     text = pre ++ city ++ post /\ all_whitespace pre /\ all_whitespace post)
  /\ (forall c, head city = Some c -> is_whitespace c = false)
  /\ (forall c, last city = Some c -> is_whitespace c = false).

(** The string [get_weather] answers a city with (it does not depend
    on the world the lookup starts in). *)
Definition answer (py : platform) (key city : pystr) : pystr :=
  match (get_weather py key city {| trace := []; user_data := ∅ |}).1 with
  | Ok s => s
  | Raise _ => []
  end.

(** Whether the reply of the free-text handler to a message goes
    through. *)
Definition is_delivered (py : platform) (key text : pystr) : bool :=
  match reply_fails py (answer py key (strip text)) None HTML with
  | None => true
  | Some _ => false
  end.

(** The city that a batch of updates leaves recorded for a user: the
    trimmed text of the user's last free-text message whose reply went
    through. *)
Fixpoint last_recorded (py : platform) (key : pystr) (uid : Z)
    (updates : list incoming) : option pystr :=
  match updates with
  | [] => None
  | i :: rest =>
      match last_recorded py key uid rest with
      | Some city => Some city
      | None =>
          match i with
          | Text update _ =>
              if bool_decide (effective_user_id update = uid)
                 && is_delivered py key (message_text update)
              then Some (strip (message_text update))
              else None
          | Command _ _ _ => None
          end
      end
  end.

(** A request of the bot: to the weather URL, with the given key. *)
Definition sent_with (key : pystr) (req : pystr * list (pystr * pystr)) : Prop :=
  exists city, req = (weather_url, weather_params key city).

(** The updates that a registered handler answers. *)
Definition is_answered (i : incoming) : bool :=
  match i with
  | Text _ _ => true
  | Command name _ _ =>
      bool_decide (name = u "start") || bool_decide (name = u "help")
      || bool_decide (name = u "weather")
  end.

(** The updates that make a handler call the lookup. *)
Definition needs_lookup (i : incoming) : bool :=
  match i with
  | Text _ _ => true
  | Command name _ context =>
      bool_decide (name = u "weather")
      && match args context with
         | [] => false
         | _ :: _ => true
         end
  end.

(** ** Further sample inputs *)

Module Samples.

(** An [int] that reads plain ASCII digits and rejects the rest. *)
Definition int_of_digits (s : pystr) : result Z :=
  match s with
  | [] => Raise (ValueError (u "invalid literal for int() with base 10: ''"))
  | _ :: _ =>
      if forallb (fun c => (48 <=? c) && (c <=? 57))%N s
      then Ok (Z.of_N (digits_value s))
      else Raise (ValueError (u "invalid literal for int() with base 10"))
  end.

(** The report of the sample answer, as text. *)
Definition report_text : pystr :=
  u "🌤 <b>Погода в Сочи</b>" ++ nl
  ++ u "Описание: ясно" ++ nl
  ++ u "Температура: 12 °C" ++ nl
  ++ u "Влажность: 80 %" ++ nl
  ++ u "Давление: н/д гПа" ++ nl
  ++ u "Скорость ветра: 3 м/с" ++ nl
  ++ u "Закат: 01:13".

Definition token : pystr := u "123456:token".

(** A platform with other replies. *)
Definition with_replies (py : platform)
    (fails : pystr -> option ReplyKeyboardMarkup -> pystr -> option pystr)
  : platform :=
  {| requests_get := requests_get py;
     exc_str := exc_str py;
     repr_float := repr_float py;
     repr_container := repr_container py;
     float_timestamp := float_timestamp py;
     utcoffset := utcoffset py;
     localtime_ok := localtime_ok py;
     reply_fails := fails |}.

(** The one check of the Bot API on HTML text that the samples need:
    a [<] opens [<b>] or [</b>]. *)
Fixpoint html_ok (s : pystr) : bool :=
  match s with
  | [] => true
  | c :: rest =>
      if (c =? 60)%N then
        match rest with
        | c1 :: c2 :: rest2 =>
            if ((c1 =? 98) && (c2 =? 62))%N then html_ok rest2
            else
              match rest2 with
              | c3 :: rest3 =>
                  if ((c1 =? 47) && (c2 =? 98) && (c3 =? 62))%N
                  then html_ok rest3
                  else false
              | [] => false
              end
        | _ => false
        end
      else html_ok rest
  end.

(** A platform whose Bot API rejects text that is not HTML (BadRequest),
    and one whose replies all time out. *)
Definition strict (outcome : get_outcome) : platform :=
  with_replies (Demo.platform_with outcome)
    (fun text _ _ =>
       if html_ok text then None
       else Some (u "Can't parse entities: unsupported start tag")).

Definition offline (outcome : get_outcome) : platform :=
  with_replies (Demo.platform_with outcome) (fun _ _ _ => Some (u "Timed out")).

Definition from (text : pystr) : Update :=
  {| message_text := text; effective_user_id := 42 |}.

End Samples.

(** * Properties *)

(** Literals stay folded in the proofs; evaluation by [vm_compute]
    still sees through them. *)
Opaque u.

(** ** Formatting of numbers *)

Lemma decimal_digits_nonempty fuel n acc :
  acc <> [] -> decimal_digits fuel n acc <> [].
Proof.
  revert n acc. induction fuel as [| fuel IH]; intros n acc Hacc; [done |].
  simpl. case_match; [done |]. by apply IH.
Qed.

Lemma decimal_nonempty z : decimal z <> [].
Proof.
  assert (Hn : forall n, decimal_N n <> []).
  { intros n. unfold decimal_N. simpl. case_match; [done |].
    by apply decimal_digits_nonempty. }
  unfold decimal. case_match; [| apply Hn].
  intros Heq. apply app_eq_nil in Heq as [_ Heq]. by apply Hn in Heq.
Qed.

Lemma decimal_one_digit (n : N) : (n < 10)%N -> decimal_N n = [(zero_char + n)%N].
Proof.
  intros Hn. unfold decimal_N. simpl.
  destruct (N.ltb_spec n 10) as [_ | Hge]; [| lia].
  by rewrite N.mod_small.
Qed.

Lemma decimal_two_digits (n : N) :
  (10 <= n < 100)%N ->
  decimal_N n = [(zero_char + n / 10)%N; (zero_char + n mod 10)%N].
Proof.
  intros [Hlo Hhi]. unfold decimal_N.
  assert (Hlog : (3 <= N.log2 n)%N).
  { change 3%N with (N.log2 8). apply N.log2_le_mono. lia. }
  destruct (N.to_nat (N.log2 n)) as [| fuel] eqn:Hfuel; [lia |].
  simpl.
  destruct (N.ltb_spec n 10) as [Hlt | _]; [lia |].
  assert (Hq : (n / 10 < 10)%N) by (apply N.Div0.div_lt_upper_bound; lia).
  destruct (N.ltb_spec (n / 10) 10) as [_ | Hge]; [| lia].
  by rewrite (N.mod_small (n / 10)).
Qed.

(** [%02d] of a number below 100 is its two decimal digits. *)
Lemma fmt02_digits (z : Z) :
  (0 <= z < 100)%Z ->
  fmt02 z = [(zero_char + Z.to_N (z / 10))%N; (zero_char + Z.to_N (z mod 10))%N].
Proof.
  intros [Hlo Hhi]. unfold fmt02, decimal.
  destruct (Z.ltb_spec z 0) as [Hneg | _]; [lia |].
  destruct (decide (z < 10)%Z) as [Hsmall | Hbig].
  - rewrite decimal_one_digit by lia. simpl.
    rewrite Z.div_small, Z.mod_small by lia.
    by rewrite N.add_0_r.
  - rewrite decimal_two_digits by lia. simpl.
    f_equal; [| f_equal]; f_equal.
    + rewrite Z2N.inj_div by lia. done.
    + rewrite Z2N.inj_mod by lia. done.
Qed.

(** ** The paths of [get_weather] *)

Section LookupFacts.

Context (py : platform) (API_KEY : pystr).

Local Abbreviation try_block := (get_weather_try py API_KEY).
Local Abbreviation lookup := (get_weather py API_KEY).
Local Abbreviation request city :=
  (HttpGet weather_url (weather_params API_KEY city)).

Lemma quiet_ret {A} (a : A) fr : quiet fr (ret a fr).
Proof. split; [done | intros e He; discriminate]. Qed.

Lemma quiet_bind {A B} (x : result A) (k : A -> M frame B) fr :
  (forall e, x = Raise e -> is_HTTPError e = false) ->
  (forall a, x = Ok a -> quiet fr (k a fr)) ->
  quiet fr (bind (eval x) k fr).
Proof.
  intros Hraise Hk. unfold bind, eval.
  destruct x as [a | e]; [by apply Hk |].
  split; [done |]. simpl. intros e' [= <-]. by apply Hraise.
Qed.

Lemma getitem_raises o k e : getitem o k = Raise e -> is_HTTPError e = false.
Proof.
  unfold getitem. intros H.
  repeat case_match; simplify_eq; done.
Qed.

Lemma get_default_raises o k d e :
  get_default o k d = Raise e -> is_HTTPError e = false.
Proof.
  unfold get_default. intros H.
  repeat case_match; simplify_eq; done.
Qed.

Lemma json_of_raises r e : json_of r = Raise e -> is_HTTPError e = false.
Proof.
  unfold json_of. intros H. case_match; simplify_eq; done.
Qed.

Lemma fromtimestamp_raises v e :
  fromtimestamp py v = Raise e -> is_HTTPError e = false.
Proof.
  unfold fromtimestamp, timestamp_seconds. intros H.
  repeat case_match; simplify_eq; done.
Qed.

Lemma http_error_msg_error r :
  (400 <= status_code r < 600)%Z -> http_error_msg r <> [].
Proof.
  intros [Hlo Hhi] Hmsg. unfold http_error_msg in Hmsg.
  repeat case_match; try lia;
    apply app_eq_nil in Hmsg as [Hdec _]; by apply decimal_nonempty in Hdec.
Qed.

Lemma http_error_msg_pass r :
  ~ (400 <= status_code r < 600)%Z -> http_error_msg r = [].
Proof.
  intros Hout. unfold http_error_msg.
  repeat case_match; try done; lia.
Qed.

Lemma raise_for_status_error r :
  (400 <= status_code r < 600)%Z ->
  raise_for_status r = Raise (HTTPError (http_error_msg r) r).
Proof.
  intros Hst. unfold raise_for_status.
  pose proof (http_error_msg_error r Hst).
  by destruct (http_error_msg r).
Qed.

Lemma raise_for_status_pass r :
  ~ (400 <= status_code r < 600)%Z -> raise_for_status r = Ok tt.
Proof.
  intros Hout. unfold raise_for_status. by rewrite http_error_msg_pass.
Qed.

(** The request fails: the [try] block ends there, [r] still unbound. *)
Lemma try_request_fails city w detail :
  requests_get py weather_url (weather_params API_KEY city) = GetRaises detail ->
  try_block city {| r_var := None; outer := w |}
  = (Raise (RequestFailure detail),
     {| r_var := None; outer := emit_event (request city) w |}).
Proof.
  intros Hget. unfold get_weather_try, bind, in_world, http_get.
  simpl. by rewrite Hget.
Qed.

(** An error status: [raise_for_status] raises, with [r] bound. *)
Lemma try_error_status city w r :
  requests_get py weather_url (weather_params API_KEY city) = GetReturns r ->
  (400 <= status_code r < 600)%Z ->
  try_block city {| r_var := None; outer := w |}
  = (Raise (HTTPError (http_error_msg r) r),
     {| r_var := Some r; outer := emit_event (request city) w |}).
Proof.
  intros Hget Hst. unfold get_weather_try, bind, in_world, http_get.
  simpl. rewrite Hget. simpl.
  by rewrite raise_for_status_error.
Qed.

(** Any other status: whatever the rest of the block does, [r] is bound
    and no [HTTPError] comes out of it. *)
Lemma try_other_status city w r :
  requests_get py weather_url (weather_params API_KEY city) = GetReturns r ->
  ~ (400 <= status_code r < 600)%Z ->
  exists res,
    try_block city {| r_var := None; outer := w |}
    = (res, {| r_var := Some r; outer := emit_event (request city) w |})
    /\ forall e, res = Raise e -> is_HTTPError e = false.
Proof.
  intros Hget Hst.
  set (fr := {| r_var := Some r; outer := emit_event (request city) w |}).
  assert (Hq : quiet fr (try_block city {| r_var := None; outer := w |})).
  { unfold get_weather_try.
    unfold bind at 1, in_world, http_get. simpl. rewrite Hget.
    unfold bind at 1, assign_r. simpl. fold fr.
    apply quiet_bind.
    { intros e He. rewrite raise_for_status_pass in He by done. discriminate. }
    intros _ _.
    repeat (apply quiet_bind;
            [ first [ apply json_of_raises | apply getitem_raises
                    | apply get_default_raises | apply fromtimestamp_raises ]
            | intros ? _ ]).
    apply quiet_ret. }
  destruct (try_block city {| r_var := None; outer := w |}) as [res fr'].
  destruct Hq as [Hfr Hres]. simpl in *. subst fr'. eauto.
Qed.

(** The messages of the three error paths. *)
Local Abbreviation not_found_text city :=
  (u "❌ Город '" ++ city ++ u "' не найден.").
Local Abbreviation api_error_text r := (u "❌ Ошибка API: " ++ http_error_msg r).
Local Abbreviation api_error_log city r :=
  (u "HTTP ошибка при запросе погоды для " ++ city ++ u ": "
   ++ http_error_msg r).
Local Abbreviation failure_text e :=
  (u "❌ Произошла ошибка: " ++ exception_text py e).
Local Abbreviation failure_log city e :=
  (u "Неожиданная ошибка при запросе погоды для " ++ city ++ u ": "
   ++ exception_text py e).

Lemma lookup_request_fails city w detail :
  requests_get py weather_url (weather_params API_KEY city) = GetRaises detail ->
  lookup city w
  = (Ok (failure_text (RequestFailure detail)),
     emit_event (Log ERROR (failure_log city (RequestFailure detail)))
       (emit_event (request city) w)).
Proof.
  intros Hget. unfold get_weather, try_except.
  by rewrite (try_request_fails _ _ _ Hget).
Qed.

Lemma lookup_not_found city w r :
  requests_get py weather_url (weather_params API_KEY city) = GetReturns r ->
  status_code r = 404%Z ->
  lookup city w = (Ok (not_found_text city), emit_event (request city) w).
Proof.
  intros Hget Hst. unfold get_weather, try_except.
  rewrite (try_error_status _ _ _ Hget) by lia.
  unfold get_weather_except, bind, load_r. simpl. by rewrite Hst.
Qed.

Lemma lookup_api_error city w r :
  requests_get py weather_url (weather_params API_KEY city) = GetReturns r ->
  (400 <= status_code r < 600)%Z ->
  status_code r <> 404%Z ->
  lookup city w
  = (Ok (api_error_text r),
     emit_event (Log ERROR (api_error_log city r))
       (emit_event (request city) w)).
Proof.
  intros Hget Hst Hne. unfold get_weather, try_except.
  rewrite (try_error_status _ _ _ Hget) by done.
  unfold get_weather_except, bind, load_r. simpl.
  destruct (Z.eqb_spec (status_code r) 404); [done |]. done.
Qed.

Lemma lookup_other_status city w r :
  requests_get py weather_url (weather_params API_KEY city) = GetReturns r ->
  ~ (400 <= status_code r < 600)%Z ->
  (exists s, lookup city w = (Ok s, emit_event (request city) w))
  \/ (exists e,
        lookup city w
        = (Ok (failure_text e),
           emit_event (Log ERROR (failure_log city e))
             (emit_event (request city) w))).
Proof.
  intros Hget Hst.
  destruct (try_other_status city w r Hget Hst) as (res & Hrun & Hres).
  unfold get_weather, try_except. rewrite Hrun.
  destruct res as [s | e]; [left; by exists s |].
  right. exists e. unfold get_weather_except. by rewrite (Hres e eq_refl).
Qed.

(** Whatever the request does, the lookup returns a string; it has sent
    the one request, logged at most one error, and left the session
    alone. *)
Lemma lookup_effects city w :
  exists s errors,
    lookup city w
    = (Ok s, {| trace := trace w ++ request city :: errors;
                user_data := user_data w |})
    /\ (errors = [] \/ exists msg, errors = [Log ERROR msg]).
Proof.
  assert (Hone : forall e, emit_event e w
                 = {| trace := trace w ++ [e]; user_data := user_data w |})
    by done.
  assert (Htwo : forall e1 e2, emit_event e2 (emit_event e1 w)
                 = {| trace := trace w ++ [e1; e2]; user_data := user_data w |}).
  { intros e1 e2. unfold emit_event. simpl. by rewrite <- app_assoc. }
  destruct (requests_get py weather_url (weather_params API_KEY city))
    as [detail | r] eqn:Hget.
  - rewrite (lookup_request_fails _ _ _ Hget), Htwo. eauto 6.
  - destruct (decide (400 <= status_code r < 600)%Z) as [Hst | Hst].
    + destruct (decide (status_code r = 404%Z)) as [H404 | H404].
      * rewrite (lookup_not_found _ _ _ Hget H404), Hone. eauto 6.
      * rewrite (lookup_api_error _ _ _ Hget Hst H404), Htwo. eauto 6.
    + destruct (lookup_other_status city w r Hget Hst) as [[s Hs] | [e He]].
      * rewrite Hs, Hone. eauto 6.
      * rewrite He, Htwo. eauto 6.
Qed.

(** C1. For every city, whatever the request does (a report, a 404,
    another error status, a network failure, a body that is not JSON, a
    report with keys missing), [get_weather] returns a string: no
    exception leaves it. *)
Theorem get_weather_always_returns (city : pystr) (w : world) :
  exists s w', get_weather py API_KEY city w = (Ok s, w').
Proof.
  destruct (lookup_effects city w) as (s & errors & Hrun & _).
  rewrite Hrun. eauto.
Qed.

(** C2. When the request comes back with status 404, [get_weather]
    returns the city-not-found message with the city's name, which is
    never the API-error message, and logs no error. *)
Theorem get_weather_city_not_found (city : pystr) (w : world) (r : response) :
  requests_get py weather_url (weather_params API_KEY city) = GetReturns r ->
  status_code r = 404%Z ->
  exists w' evs,
    get_weather py API_KEY city w
    = (Ok (u "❌ Город '" ++ city ++ u "' не найден."), w')
    /\ trace w' = trace w ++ evs
    /\ logged ERROR evs = []
    /\ forall text,
         u "❌ Город '" ++ city ++ u "' не найден." <> u "❌ Ошибка API: " ++ text.
Proof.
  intros Hget Hst. rewrite (lookup_not_found _ _ _ Hget Hst).
  exists (emit_event (request city) w), [request city].
  repeat split.
  intros text Heq. apply (f_equal (take 3)) in Heq.
  vm_compute in Heq. discriminate.
Qed.

(** C3, amended. When the request comes back with a client-error or
    server-error status (400 to 599) other than 404, [get_weather]
    returns the API-error message with the text of the error (the
    message that [raise_for_status] has built), and logs exactly one
    error. *)
Theorem get_weather_api_error (city : pystr) (w : world) (r : response) :
  requests_get py weather_url (weather_params API_KEY city) = GetReturns r ->
  (400 <= status_code r < 600)%Z ->
  status_code r <> 404%Z ->
  exists w' evs,
    get_weather py API_KEY city w
    = (Ok (u "❌ Ошибка API: " ++ http_error_msg r), w')
    /\ trace w' = trace w ++ evs
    /\ logged ERROR evs
       = [u "HTTP ошибка при запросе погоды для " ++ city ++ u ": "
          ++ http_error_msg r].
Proof.
  intros Hget Hst Hne. rewrite (lookup_api_error _ _ _ Hget Hst Hne).
  eexists _, [request city; Log ERROR _].
  split; [done |]. split; [| done].
  unfold emit_event. simpl. by rewrite <- app_assoc.
Qed.

(** C8. For every city, [get_weather] sends exactly one HTTP GET, to the
    OpenWeatherMap endpoint, with the city as it was given in [q], the
    key in [appid], [units=metric] and [lang=ru]. *)
Theorem get_weather_one_request (city : pystr) (w : world) :
  exists res w' evs,
    get_weather py API_KEY city w = (res, w')
    /\ trace w' = trace w ++ evs
    /\ http_requests evs
       = [ (u "https://api.openweathermap.org/data/2.5/weather",
            [ (u "q", city); (u "appid", API_KEY);
              (u "units", u "metric"); (u "lang", u "ru") ]) ].
Proof.
  destruct (lookup_effects city w) as (s & errors & Hrun & Herr).
  rewrite Hrun. eexists _, _, (request city :: errors).
  split; [done |]. split; [done |].
  destruct Herr as [-> | [msg ->]]; done.
Qed.

(** The hour and the minute of a local time are in range. *)
Lemma hour_minute_bounds (local : Z) :
  (0 <= (local / 3600) mod 24 < 24)%Z /\ (0 <= (local / 60) mod 60 < 60)%Z.
Proof. split; apply Z.mod_pos_bound; lia. Qed.

(** C4. For a successful (2xx) response that carries a weather report,
    [get_weather] returns the template filled with the city, the
    description, the temperature, the humidity, the pressure (the
    placeholder when [main.grnd_level] is absent), the wind speed, and
    the sunset instant as the two digits of the local hour, a colon,
    and the two digits of the local minute. *)
Theorem get_weather_report (city : pystr) (w : world) (r : response)
    (data weather0 main wind sys : gmap pystr json) (others : list json)
    (description temp humidity speed : json) (sunset : Z) :
  requests_get py weather_url (weather_params API_KEY city) = GetReturns r ->
  (200 <= status_code r < 300)%Z ->
  body r = Some (JDict data) ->
  data !! u "weather" = Some (JList (JDict weather0 :: others)) ->
  weather0 !! u "description" = Some description ->
  data !! u "main" = Some (JDict main) ->
  main !! u "temp" = Some temp ->
  main !! u "humidity" = Some humidity ->
  data !! u "wind" = Some (JDict wind) ->
  wind !! u "speed" = Some speed ->
  data !! u "sys" = Some (JDict sys) ->
  sys !! u "sunset" = Some (JInt sunset) ->
  localtime_ok py sunset = true ->
  let local := (sunset + utcoffset py sunset)%Z in
  let hh := ((local / 3600) mod 24)%Z in
  let mm := ((local / 60) mod 60)%Z in
  let pressure :=
    match main !! u "grnd_level" with
    | Some p => format_value py p
    | None => u "н/д"
    end in
  get_weather py API_KEY city w
  = (Ok (u "🌤 <b>Погода в " ++ city ++ u "</b>" ++ nl
         ++ u "Описание: " ++ format_value py description ++ nl
         ++ u "Температура: " ++ format_value py temp ++ u " °C" ++ nl
         ++ u "Влажность: " ++ format_value py humidity ++ u " %" ++ nl
         ++ u "Давление: " ++ pressure ++ u " гПа" ++ nl
         ++ u "Скорость ветра: " ++ format_value py speed ++ u " м/с" ++ nl
         ++ u "Закат: "
         ++ [ (48 + Z.to_N (hh / 10))%N; (48 + Z.to_N (hh mod 10))%N; 58%N;
              (48 + Z.to_N (mm / 10))%N; (48 + Z.to_N (mm mod 10))%N ]),
     emit_event (HttpGet weather_url (weather_params API_KEY city)) w)
  /\ (0 <= hh < 24)%Z /\ (0 <= mm < 60)%Z.
Proof.
  intros Hget Hst Hbody Hweather Hdesc Hmain Htemp Hhum Hwind Hspeed Hsys
    Hsunset Htime local hh mm pressure.
  destruct (hour_minute_bounds local) as [Hhh Hmm].
  split; [| done].
  unfold get_weather, try_except, get_weather_try, bind, in_world, http_get.
  simpl. rewrite Hget. simpl.
  rewrite raise_for_status_pass by lia.
  unfold json_of. rewrite Hbody. simpl.
  rewrite Hweather. simpl. rewrite Hdesc, Hmain. simpl.
  rewrite Htemp, Hhum, Hwind. simpl. rewrite Hspeed, Hsys. simpl.
  rewrite Hsunset. unfold fromtimestamp. simpl. rewrite Htime.
  unfold ret, strftime_HM. simpl.
  fold local. fold hh. fold mm.
  rewrite (fmt02_digits hh), (fmt02_digits mm) by lia.
  do 3 f_equal.
  subst pressure. by destruct (main !! u "grnd_level").
Qed.

End LookupFacts.

(** ** Trimming *)

Lemma lstrip_decompose s : exists pre, s = pre ++ lstrip s /\ all_whitespace pre.
Proof.
  induction s as [| c rest [pre [Heq Hpre]]].
  { exists []. split; [done | apply Forall_nil_2]. }
  simpl. destruct (is_whitespace c) eqn:Hc.
  - exists (c :: pre). split; [simpl; by rewrite <- Heq |].
    by apply Forall_cons.
  - exists []. split; [done | apply Forall_nil_2].
Qed.

Lemma lstrip_head s c : head (lstrip s) = Some c -> is_whitespace c = false.
Proof.
  induction s as [| c' rest IH]; [done |].
  simpl. destruct (is_whitespace c') eqn:Hc; [done |].
  simpl. by intros [= <-].
Qed.

Lemma lstrip_fixed s :
  (forall c, head s = Some c -> is_whitespace c = false) -> lstrip s = s.
Proof.
  destruct s as [| c rest]; [done |].
  intros Hhead. simpl. by rewrite (Hhead c eq_refl).
Qed.

Lemma lstrip_all_whitespace s : all_whitespace s -> lstrip s = [].
Proof.
  induction 1 as [| c rest Hc _ IH]; [done |]. simpl. by rewrite Hc.
Qed.

Lemma rstrip_decompose s :
  exists post, s = rstrip s ++ post /\ all_whitespace post.
Proof.
  destruct (lstrip_decompose (reverse s)) as (pre & Heq & Hpre).
  exists (reverse pre). split.
  - unfold rstrip. rewrite <- reverse_app, <- Heq. by rewrite reverse_involutive.
  - unfold all_whitespace. by rewrite Forall_reverse.
Qed.

Lemma rstrip_last s c : last (rstrip s) = Some c -> is_whitespace c = false.
Proof.
  unfold rstrip. rewrite last_reverse. apply lstrip_head.
Qed.

Lemma rstrip_fixed s :
  (forall c, last s = Some c -> is_whitespace c = false) -> rstrip s = s.
Proof.
  intros Hlast. unfold rstrip. rewrite lstrip_fixed.
  - apply reverse_involutive.
  - intros c. rewrite head_reverse. apply Hlast.
Qed.

Lemma rstrip_head s c :
  (forall c', head s = Some c' -> is_whitespace c' = false) ->
  head (rstrip s) = Some c -> is_whitespace c = false.
Proof.
  intros Hhead Hc. destruct (rstrip_decompose s) as (post & Heq & _).
  apply Hhead. rewrite Heq.
  destruct (rstrip s) as [| c' rest]; [done |]. exact Hc.
Qed.

Lemma strip_ends s :
  (forall c, head (strip s) = Some c -> is_whitespace c = false)
  /\ (forall c, last (strip s) = Some c -> is_whitespace c = false).
Proof.
  unfold strip. split.
  - intros c. apply rstrip_head. apply lstrip_head.
  - apply rstrip_last.
Qed.

Lemma strip_is_trimmed s : is_trimmed_of s (strip s).
Proof.
  split; [| apply strip_ends].
  destruct (lstrip_decompose s) as (pre & Hpre & Hwpre).
  destruct (rstrip_decompose (lstrip s)) as (post & Hpost & Hwpost).
  exists pre, post. unfold strip. by rewrite <- Hpost.
Qed.

(** ** The handlers *)

Section HandlerFacts.

Context (py : platform) (API_KEY : pystr).

Local Abbreviation request city :=
  (HttpGet weather_url (weather_params API_KEY city)).

(** The lookup, as a handler sees it. *)
Lemma lookup_in_handler city w :
  exists info w1 evs,
    get_weather py API_KEY city w = (Ok info, w1)
    /\ trace w1 = trace w ++ evs
    /\ user_data w1 = user_data w
    /\ http_requests evs = [(weather_url, weather_params API_KEY city)]
    /\ replies evs = []
    /\ logged INFO evs = [].
Proof.
  destruct (lookup_effects py API_KEY city w) as (s & errors & Hrun & Herr).
  rewrite Hrun. eexists _, _, (request city :: errors).
  split; [done |]. split; [done |]. split; [done |].
  destruct Herr as [-> | [msg ->]]; done.
Qed.

Lemma http_requests_app evs1 evs2 :
  http_requests (evs1 ++ evs2) = http_requests evs1 ++ http_requests evs2.
Proof. apply omap_app. Qed.

Lemma replies_app evs1 evs2 : replies (evs1 ++ evs2) = replies evs1 ++ replies evs2.
Proof. apply omap_app. Qed.

Lemma logged_app lvl evs1 evs2 :
  logged lvl (evs1 ++ evs2) = logged lvl evs1 ++ logged lvl evs2.
Proof. apply omap_app. Qed.

(** How a reply ends, read off the platform. *)
Lemma reply_result_returns text markup mode :
  reply_fails py text markup mode = None ->
  reply_result py text markup mode = Ok tt.
Proof. unfold reply_result. by intros ->. Qed.

Lemma reply_result_raises text markup mode msg :
  reply_fails py text markup mode = Some msg ->
  reply_result py text markup mode = Raise (TelegramError msg).
Proof. unfold reply_result. by intros ->. Qed.

(** The free-text handler, step by step: the lookup, the reply, and,
    only if the reply call returns, the write to the session and the
    log record. *)
Lemma handle_message_run update context w :
  let city := strip (message_text update) in
  exists info w1 evs,
    get_weather py API_KEY city w = (Ok info, w1)
    /\ trace w1 = trace w ++ evs
    /\ user_data w1 = user_data w
    /\ http_requests evs = [(weather_url, weather_params API_KEY city)]
    /\ replies evs = []
    /\ logged INFO evs = []
    /\ handle_message py API_KEY update context w
       = match reply_fails py info None HTML with
         | None =>
             (Ok tt,
              {| trace := trace w1
                          ++ [ ReplyText info None HTML;
                               Log INFO
                                 (u "Пользователь "
                                  ++ decimal (effective_user_id update)
                                  ++ u " запросил погоду для " ++ city) ];
                 user_data := <[u "last_city" := city]> (user_data w) |})
         | Some msg =>
             (Raise (TelegramError msg),
              {| trace := trace w1 ++ [ReplyText info None HTML];
                 user_data := user_data w |})
         end.
Proof.
  intros city.
  destruct (lookup_in_handler city w)
    as (info & w1 & evs & Hrun & Htrace & Hdata & Hreq & Hrep & Hlog).
  exists info, w1, evs. repeat (split; [done |]).
  unfold handle_message, bind. fold city. rewrite Hrun.
  unfold reply_text, reply_result, user_data_set, logger_info, emit_event.
  destruct (reply_fails py info None HTML) as [msg |]; simpl.
  - by rewrite Hdata.
  - by rewrite <- app_assoc, Hdata.
Qed.

(** C5, amended. For every free-text message the handler takes the
    text without the white space around it as the city, makes the one
    lookup for it and hands one reply with the lookup's result to the
    Bot API; when that call returns, it sets [user_data["last_city"]]
    to the city and logs the user id and the city. *)
Theorem handle_message_effects (update : Update) (context : CallbackContext)
    (w : world) :
  let city := strip (message_text update) in
  is_trimmed_of (message_text update) city
  /\ exists info w1 res w' evs,
       get_weather py API_KEY city w = (Ok info, w1)
       /\ handle_message py API_KEY update context w = (res, w')
       /\ trace w' = trace w ++ evs
       /\ http_requests evs = [(weather_url, weather_params API_KEY city)]
       /\ replies evs = [info]
       /\ (reply_fails py info None HTML = None ->
           res = Ok tt
           /\ user_data w' = <[u "last_city" := city]> (user_data w)
           /\ logged INFO evs
              = [u "Пользователь " ++ decimal (effective_user_id update)
                 ++ u " запросил погоду для " ++ city]).
Proof.
  intros city. split; [apply strip_is_trimmed |].
  destruct (handle_message_run update context w)
    as (info & w1 & evs & Hrun & Htrace & Hdata & Hreq & Hrep & Hlog & Hrun').
  fold city in Hrun, Hreq, Hrun'.
  exists info, w1. rewrite Hrun'.
  destruct (reply_fails py info None HTML) as [msg |].
  - eexists _, _, (evs ++ [ReplyText info None HTML]).
    split; [done |]. split; [reflexivity |]. simpl.
    rewrite Htrace, http_requests_app, replies_app, Hreq, Hrep, <- app_assoc.
    repeat (split; [done |]). discriminate.
  - eexists _, _, (evs ++ [ReplyText info None HTML; Log INFO _]).
    split; [done |]. split; [reflexivity |]. simpl.
    rewrite Htrace, http_requests_app, replies_app, logged_app.
    rewrite Hreq, Hrep, Hlog, <- app_assoc.
    repeat (split; [done |]). done.
Qed.

(** C10, amended. Whatever the lookup returned, a report or an error
    string, the free-text handler sets the last queried city to the text
    without the white space around it, provided the reply call before
    the write returns. *)
Theorem handle_message_records_city (update : Update)
    (context : CallbackContext) (w : world) :
  let city := strip (message_text update) in
  is_trimmed_of (message_text update) city
  /\ exists info w1 res w',
       get_weather py API_KEY city w = (Ok info, w1)
       /\ handle_message py API_KEY update context w = (res, w')
       /\ (reply_fails py info None HTML = None ->
           res = Ok tt /\ user_data w' !! u "last_city" = Some city).
Proof.
  intros city. split; [apply strip_is_trimmed |].
  destruct (handle_message_run update context w)
    as (info & w1 & evs & Hrun & _ & _ & _ & _ & _ & Hrun').
  fold city in Hrun, Hrun'.
  exists info, w1. rewrite Hrun'.
  destruct (reply_fails py info None HTML) as [msg |].
  - eexists _, _. split; [done |]. split; [reflexivity |]. discriminate.
  - eexists _, _. split; [done |]. split; [reflexivity |].
    intros _. split; [done |]. simpl. apply lookup_insert_eq.
Qed.

(** C6. The /weather command: with arguments, they are joined with
    single spaces into the city, the lookup is made for it and its
    result is the reply; without arguments the reply is the fixed
    message and no request is sent.  The reply is the last statement,
    so the handler ends as the reply call does. *)
Theorem weather_command (update : Update) (context : CallbackContext)
    (w : world) :
  (args context <> [] ->
   let city := join (u " ") (args context) in
   exists info w1 evs,
     get_weather py API_KEY city w = (Ok info, w1)
     /\ weather py API_KEY update context w
        = (reply_result py info None HTML,
           emit_event (ReplyText info None HTML) w1)
     /\ trace w1 = trace w ++ evs
     /\ http_requests evs = [(weather_url, weather_params API_KEY city)]
     /\ replies evs = [])
  /\ (args context = [] ->
      exists w' evs,
        weather py API_KEY update context w
        = (reply_result py (u "❌ Укажите город после команды /weather")
             None HTML,
           w')
        /\ trace w' = trace w ++ evs
        /\ replies evs = [u "❌ Укажите город после команды /weather"]
        /\ http_requests evs = []).
Proof.
  split.
  - intros Hargs city.
    destruct (lookup_in_handler city w)
      as (info & w1 & evs & Hrun & Htrace & _ & Hreq & Hrep & _).
    exists info, w1, evs. split; [done |].
    unfold weather. destruct (args context) as [| a rest] eqn:Ha; [done |].
    unfold bind. subst city. by rewrite Hrun.
  - intros Hargs. unfold weather. rewrite Hargs.
    by eexists _, [ReplyText _ None HTML].
Qed.

Lemma weather_keeps_session update context w :
  user_data (weather py API_KEY update context w).2 = user_data w.
Proof.
  unfold weather. destruct (args context) as [| a rest]; [done |].
  destruct (lookup_in_handler (join (u " ") (a :: rest)) w)
    as (info & w1 & evs & Hrun & _ & Hdata & _).
  unfold bind. by rewrite Hrun.
Qed.

End HandlerFacts.

(** C9. The /start, /help and /weather handlers leave the session's
    last queried city as it was, and so does the dispatch of any
    command update. *)
Theorem commands_keep_last_city (py : platform) (cfg : secrets) (name : pystr)
    (update : Update) (context : CallbackContext) (w : world) :
  user_data (start py update context w).2 !! u "last_city"
  = user_data w !! u "last_city"
  /\ user_data (help_command py update context w).2 !! u "last_city"
     = user_data w !! u "last_city"
  /\ user_data (weather py (API_KEY cfg) update context w).2 !! u "last_city"
     = user_data w !! u "last_city"
  /\ user_data (dispatch py cfg (Command name update context) w).2
       !! u "last_city"
     = user_data w !! u "last_city".
Proof.
  split; [done |]. split; [done |].
  split; [by rewrite weather_keeps_session |].
  unfold dispatch. repeat case_decide; try done.
  by rewrite weather_keeps_session.
Qed.

(** ** Start-up *)

(** C7. If [API_KEY] or [TG_KEY] is absent from the environment, the
    script raises at the module level, before anything has happened:
    no thread is started, no request is sent, the bot does not poll and
    no handler runs. *)
Theorem script_requires_secrets (py : platform)
    (dotenv environ : gmap pystr pystr) (updates : list incoming) (w : world) :
  getenv (load_dotenv dotenv environ) (u "API_KEY") = None
  \/ getenv (load_dotenv dotenv environ) (u "TG_KEY") = None ->
  exists msg,
    script py dotenv environ updates w = (Raise (ValueError msg), w).
Proof.
  intros Habsent. unfold script, bind, eval, load_secrets.
  destruct (getenv (load_dotenv dotenv environ) (u "API_KEY")) as [api |] eqn:Ha.
  - destruct Habsent as [? | Htg]; [done |]. rewrite Htg.
    destruct (is_falsy (Some api)); simpl; eauto.
  - simpl. eauto.
Qed.

(** ** The properties at sample inputs *)

Example strip_trims_both_ends : strip (u "  Сочи " ++ nl) = u "Сочи".
Proof. vm_compute. reflexivity. Qed.

Example strip_keeps_inner_spaces :
  strip (u " Нижний Новгород ") = u "Нижний Новгород".
Proof. vm_compute. reflexivity. Qed.

Example join_two_words :
  join (u " ") [u "Нижний"; u "Новгород"] = u "Нижний Новгород".
Proof. vm_compute. reflexivity. Qed.

Example report_for_sochi :
  (get_weather
     (Demo.platform_with (GetReturns (Demo.answer 200 (u "OK") (Some Demo.report))))
     Demo.key Demo.sochi Demo.idle).1
  = Ok (u "🌤 <b>Погода в Сочи</b>" ++ nl
        ++ u "Описание: ясно" ++ nl
        ++ u "Температура: 12 °C" ++ nl
        ++ u "Влажность: 80 %" ++ nl
        ++ u "Давление: н/д гПа" ++ nl
        ++ u "Скорость ветра: 3 м/с" ++ nl
        ++ u "Закат: 01:13").
Proof. vm_compute. reflexivity. Qed.

Example api_error_for_sochi :
  (get_weather
     (Demo.platform_with
        (GetReturns (Demo.answer 401 (u "Unauthorized") None)))
     Demo.key Demo.sochi Demo.idle).1
  = Ok (u "❌ Ошибка API: 401 Client Error: Unauthorized for url: https://api.openweathermap.org/data/2.5/weather?q=%D0%A1%D0%BE%D1%87%D0%B8&appid=0123456789abcdef&units=metric&lang=ru").
Proof. vm_compute. reflexivity. Qed.

Example request_failure_for_sochi :
  get_weather (Demo.platform_with (GetRaises (u "Connection refused")))
    Demo.key Demo.sochi Demo.idle
  = (Ok (u "❌ Произошла ошибка: Connection refused"),
     {| trace :=
          [ HttpGet weather_url (weather_params Demo.key Demo.sochi);
            Log ERROR
              (u "Неожиданная ошибка при запросе погоды для Сочи: Connection refused") ];
        user_data := ∅ |}).
Proof. vm_compute. reflexivity. Qed.

Example missing_key_for_sochi :
  (get_weather
     (Demo.platform_with
        (GetReturns (Demo.answer 200 (u "OK")
                       (Some (JDict {[ u "cod" := JInt 200 ]})))))
     Demo.key Demo.sochi Demo.idle).1
  = Ok (u "❌ Произошла ошибка: error").
Proof. vm_compute. reflexivity. Qed.

Example free_text_sochi :
  let py := Demo.platform_with
              (GetReturns (Demo.answer 404 (u "Not Found") None)) in
  let update := {| message_text := u " Сочи "; effective_user_id := 42 |} in
  handle_message py Demo.key update {| args := [] |} Demo.idle
  = (Ok tt,
     {| trace :=
          [ HttpGet weather_url (weather_params Demo.key (u "Сочи"));
            ReplyText (u "❌ Город 'Сочи' не найден.") None HTML;
            Log INFO (u "Пользователь 42 запросил погоду для Сочи") ];
        user_data := {[ u "last_city" := u "Сочи" ]} |}).
Proof. vm_compute. reflexivity. Qed.

Example script_with_secrets :
  let py := Demo.platform_with
              (GetReturns (Demo.answer 404 (u "Not Found") None)) in
  let environ : gmap pystr pystr :=
    {[ u "API_KEY" := Demo.key; u "TG_KEY" := u "123456:token" ]} in
  let update := {| message_text := u "/weather"; effective_user_id := 42 |} in
  script py ∅ environ [Command (u "weather") update {| args := [] |}] Demo.idle
  = (Ok tt,
     {| trace :=
          [ ThreadStart (u "run_flask") true;
            Log INFO (u "Запуск Telegram-бота...");
            RunPolling (u "123456:token");
            ReplyText (u "❌ Укажите город после команды /weather") None HTML ];
        user_data := ∅ |}).
Proof. vm_compute. reflexivity. Qed.

(** C5, as amended, at the message [  Сочи ] followed by a newline,
    answered with a 404: the reply goes through. *)
Lemma handle_message_effects_witness :
  let py := Demo.platform_with
              (GetReturns (Demo.answer 404 (u "Not Found") None)) in
  let update := {| message_text := u "  Сочи " ++ nl;
                   effective_user_id := 42 |} in
  let context := {| args := [] |} in
  strip (message_text update) = u "Сочи"
  /\ is_trimmed_of (message_text update) (u "Сочи")
  /\ reply_fails py (u "❌ Город 'Сочи' не найден.") None HTML = None
  /\ exists w' evs,
       handle_message py Demo.key update context Demo.idle = (Ok tt, w')
       /\ trace w' = trace Demo.idle ++ evs
       /\ http_requests evs
          = [(weather_url, weather_params Demo.key (u "Сочи"))]
       /\ replies evs = [u "❌ Город 'Сочи' не найден."]
       /\ user_data w' = <[u "last_city" := u "Сочи"]> (user_data Demo.idle)
       /\ logged INFO evs = [u "Пользователь 42 запросил погоду для Сочи"].
Proof.
  intros py update context.
  assert (Hcity : strip (message_text update) = u "Сочи")
    by (vm_compute; reflexivity).
  assert (Hsent : reply_fails py (u "❌ Город 'Сочи' не найден.") None HTML
                  = None) by reflexivity.
  pose proof (handle_message_effects py Demo.key update context Demo.idle)
    as Heffects.
  cbv zeta in Heffects. rewrite Hcity in Heffects.
  destruct Heffects
    as (Htrim & info & w1 & res & w' & evs
        & Hlookup & Hrun & Htrace & Hreq & Hrep & Hafter).
  assert (Hinfo : info = u "❌ Город 'Сочи' не найден.").
  { assert (Hfirst : (get_weather py Demo.key (u "Сочи") Demo.idle).1
                     = Ok (u "❌ Город 'Сочи' не найден."))
      by (vm_compute; reflexivity).
    rewrite Hlookup in Hfirst. by injection Hfirst. }
  subst info. destruct (Hafter Hsent) as (-> & Hdata & Hlog).
  split; [exact Hcity |]. split; [exact Htrim |]. split; [exact Hsent |].
  exists w', evs. split; [exact Hrun |]. split; [exact Htrace |].
  split; [exact Hreq |]. split; [exact Hrep |]. split; [exact Hdata |].
  rewrite Hlog. vm_compute. reflexivity.
Defined.

(** The claim of C5 as it was stated, for every free-text message,
    fails for the message [<b] answered with a 404: the text of the
    reply is not valid HTML, the Bot API rejects it, the awaited
    [reply_text] raises, and the two statements after it are not
    reached: no [last_city], no log record. *)
Lemma handle_message_reply_rejected :
  let py := Samples.strict
              (GetReturns (Demo.answer 404 (u "Not Found") None)) in
  let update := {| message_text := u "<b"; effective_user_id := 42 |} in
  let context := {| args := [] |} in
  handle_message py Demo.key update context Demo.idle
  = (Raise (TelegramError (u "Can't parse entities: unsupported start tag")),
     {| trace :=
          [ HttpGet weather_url (weather_params Demo.key (u "<b"));
            ReplyText (u "❌ Город '<b' не найден.") None HTML ];
        user_data := ∅ |})
  /\ user_data (handle_message py Demo.key update context Demo.idle).2
       !! u "last_city" = None
  /\ logged INFO
       (trace (handle_message py Demo.key update context Demo.idle).2) = []
  /\ ~ exists w',
        handle_message py Demo.key update context Demo.idle = (Ok tt, w').
Proof.
  intros py update context.
  assert (Hrun : handle_message py Demo.key update context Demo.idle
                 = (Raise (TelegramError
                             (u "Can't parse entities: unsupported start tag")),
                    {| trace :=
                         [ HttpGet weather_url (weather_params Demo.key (u "<b"));
                           ReplyText (u "❌ Город '<b' не найден.") None HTML ];
                       user_data := ∅ |}))
    by (vm_compute; reflexivity).
  split; [exact Hrun |]. rewrite Hrun.
  split; [reflexivity |]. split; [reflexivity |].
  intros [w' Hok]. discriminate.
Qed.

(** C10, as amended, at a city that the provider does not know: the
    lookup fails, the reply goes through, the city is recorded. *)
Lemma handle_message_records_city_witness :
  let py := Demo.platform_with
              (GetReturns (Demo.answer 404 (u "Not Found") None)) in
  let update := {| message_text := u " Китеж " ++ nl;
                   effective_user_id := 42 |} in
  let context := {| args := [] |} in
  strip (message_text update) = u "Китеж"
  /\ is_trimmed_of (message_text update) (u "Китеж")
  /\ get_weather py Demo.key (u "Китеж") Demo.idle
     = (Ok (u "❌ Город 'Китеж' не найден."),
        {| trace := [HttpGet weather_url (weather_params Demo.key (u "Китеж"))];
           user_data := ∅ |})
  /\ reply_fails py (u "❌ Город 'Китеж' не найден.") None HTML = None
  /\ exists w',
       handle_message py Demo.key update context Demo.idle = (Ok tt, w')
       /\ user_data w' !! u "last_city" = Some (u "Китеж").
Proof.
  intros py update context.
  assert (Hcity : strip (message_text update) = u "Китеж")
    by (vm_compute; reflexivity).
  assert (Hfirst : get_weather py Demo.key (u "Китеж") Demo.idle
                   = (Ok (u "❌ Город 'Китеж' не найден."),
                      {| trace := [HttpGet weather_url
                                     (weather_params Demo.key (u "Китеж"))];
                         user_data := ∅ |}))
    by (vm_compute; reflexivity).
  assert (Hsent : reply_fails py (u "❌ Город 'Китеж' не найден.") None HTML
                  = None) by reflexivity.
  pose proof (handle_message_records_city py Demo.key update context Demo.idle)
    as Hrecord.
  cbv zeta in Hrecord. rewrite Hcity in Hrecord.
  destruct Hrecord as (Htrim & info & w1 & res & w' & Hlookup & Hrun & Hafter).
  rewrite Hfirst in Hlookup. injection Hlookup as <- _.
  destruct (Hafter Hsent) as (-> & Hdata).
  split; [exact Hcity |]. split; [exact Htrim |]. split; [exact Hfirst |].
  split; [exact Hsent |].
  exists w'. split; [exact Hrun |]. exact Hdata.
Defined.

(** The claim of C10 as it was stated, an unconditional update, fails
    when the reply times out, even though the lookup succeeded: the
    awaited [reply_text] raises before the write to the session. *)
Lemma handle_message_city_not_recorded :
  let py := Samples.offline
              (GetReturns (Demo.answer 200 (u "OK") (Some Demo.report))) in
  let update := {| message_text := u " Сочи "; effective_user_id := 42 |} in
  let context := {| args := [] |} in
  strip (message_text update) = u "Сочи"
  /\ (get_weather py Demo.key (u "Сочи") Demo.idle).1 = Ok Samples.report_text
  /\ handle_message py Demo.key update context Demo.idle
     = (Raise (TelegramError (u "Timed out")),
        {| trace :=
             [ HttpGet weather_url (weather_params Demo.key (u "Сочи"));
               ReplyText Samples.report_text None HTML ];
           user_data := ∅ |})
  /\ user_data (handle_message py Demo.key update context Demo.idle).2
       !! u "last_city"
     <> Some (strip (message_text update)).
Proof.
  intros py update context.
  assert (Hrun : handle_message py Demo.key update context Demo.idle
                 = (Raise (TelegramError (u "Timed out")),
                    {| trace :=
                         [ HttpGet weather_url
                             (weather_params Demo.key (u "Сочи"));
                           ReplyText Samples.report_text None HTML ];
                       user_data := ∅ |}))
    by (vm_compute; reflexivity).
  split; [vm_compute; reflexivity |].
  split; [vm_compute; reflexivity |].
  split; [exact Hrun |]. rewrite Hrun. simpl. discriminate.
Qed.

(** A batch from two users on a Bot API that rejects bad HTML: the
    handler of the first message raises, the loop goes on, and each
    user's session records that user's own city. *)
Example two_users_batch :
  let py := Samples.strict
              (GetReturns (Demo.answer 404 (u "Not Found") None)) in
  let cfg := {| API_KEY := Demo.key; TG_KEY := Samples.token |} in
  let plain := {| args := [] |} in
  let updates :=
    [ Text {| message_text := u "<b"; effective_user_id := 1 |} plain;
      Text {| message_text := u " Сочи "; effective_user_id := 2 |} plain;
      Text {| message_text := u "Игора"; effective_user_id := 1 |} plain;
      Command (u "start")
        {| message_text := u "/start"; effective_user_id := 2 |} plain ] in
  exists w',
    process_updates py cfg updates ∅ Demo.idle
    = (Ok {[ 1%Z := {[ u "last_city" := u "Игора" ]};
             2%Z := {[ u "last_city" := u "Сочи" ]} ]}, w')
    /\ replies (trace w')
       = [ u "❌ Город '<b' не найден.";
           u "❌ Город 'Сочи' не найден.";
           u "❌ Город 'Игора' не найден.";
           u "Привет! Выберите город из списка или введите свой:" ]
    /\ logged INFO (trace w')
       = [ u "Пользователь 2 запросил погоду для Сочи";
           u "Пользователь 1 запросил погоду для Игора" ].
Proof.
  intros py cfg plain updates. eexists. split; [vm_compute; reflexivity |].
  split; vm_compute; reflexivity.
Qed.

(** C2 at a 404 answer for Сочи. *)
Lemma get_weather_city_not_found_witness :
  let r := Demo.answer 404 (u "Not Found") None in
  let py := Demo.platform_with (GetReturns r) in
  requests_get py weather_url (weather_params Demo.key Demo.sochi) = GetReturns r
  /\ status_code r = 404%Z
  /\ exists w' evs,
       get_weather py Demo.key Demo.sochi Demo.idle
       = (Ok (u "❌ Город '" ++ Demo.sochi ++ u "' не найден."), w')
       /\ trace w' = trace Demo.idle ++ evs
       /\ logged ERROR evs = []
       /\ forall text,
            u "❌ Город '" ++ Demo.sochi ++ u "' не найден."
            <> u "❌ Ошибка API: " ++ text.
Proof.
  intros r py. split; [reflexivity |]. split; [reflexivity |].
  apply (get_weather_city_not_found py Demo.key Demo.sochi Demo.idle r);
    reflexivity.
Defined.

(** C3, as amended, at a 500 answer. *)
Lemma get_weather_api_error_witness :
  let r := Demo.answer 500 (u "Internal Server Error") None in
  let py := Demo.platform_with (GetReturns r) in
  requests_get py weather_url (weather_params Demo.key Demo.sochi) = GetReturns r
  /\ (400 <= status_code r < 600)%Z
  /\ status_code r <> 404%Z
  /\ exists w' evs,
       get_weather py Demo.key Demo.sochi Demo.idle
       = (Ok (u "❌ Ошибка API: " ++ http_error_msg r), w')
       /\ trace w' = trace Demo.idle ++ evs
       /\ logged ERROR evs
          = [u "HTTP ошибка при запросе погоды для " ++ Demo.sochi ++ u ": "
             ++ http_error_msg r].
Proof.
  intros r py.
  assert (Hst : (400 <= status_code r < 600)%Z) by (simpl; lia).
  assert (Hne : status_code r <> 404%Z) by (simpl; lia).
  split; [reflexivity |]. split; [exact Hst |]. split; [exact Hne |].
  exact (get_weather_api_error py Demo.key Demo.sochi Demo.idle r
           eq_refl Hst Hne).
Defined.

(** The claim of C3 as it was stated, for every status outside 200 to
    299 other than 404, fails at 304: requests returns a 304 response as
    it is, [raise_for_status] lets it pass, [r.json()] fails on the empty
    body, and the second [except] clause answers. *)
Lemma get_weather_not_modified :
  let r := Demo.answer 304 (u "Not Modified") None in
  let py := Demo.platform_with (GetReturns r) in
  requests_get py weather_url (weather_params Demo.key Demo.sochi) = GetReturns r
  /\ ~ (200 <= status_code r < 300)%Z
  /\ status_code r <> 404%Z
  /\ get_weather py Demo.key Demo.sochi Demo.idle
     = (Ok (u "❌ Произошла ошибка: Expecting value: line 1 column 1 (char 0)"),
        {| trace :=
             [ HttpGet weather_url (weather_params Demo.key Demo.sochi);
               Log ERROR
                 (u "Неожиданная ошибка при запросе погоды для Сочи: Expecting value: line 1 column 1 (char 0)") ];
           user_data := ∅ |})
  /\ ~ exists text w',
         get_weather py Demo.key Demo.sochi Demo.idle
         = (Ok (u "❌ Ошибка API: " ++ text), w').
Proof.
  intros r py. split; [reflexivity |].
  split; [simpl; lia |]. split; [simpl; lia |].
  split; [vm_compute; reflexivity |].
  intros (text & w' & Hrun). vm_compute in Hrun. discriminate.
Qed.

(** C4 at the sample report: sunset 1700000000 is 01:13 in UTC+3. *)
Lemma get_weather_report_witness :
  let r := Demo.answer 200 (u "OK") (Some Demo.report) in
  let py := Demo.platform_with (GetReturns r) in
  requests_get py weather_url (weather_params Demo.key Demo.sochi) = GetReturns r
  /\ (200 <= status_code r < 300)%Z
  /\ body r = Some (JDict Demo.report_data)
  /\ Demo.report_data !! u "weather" = Some (JList [JDict Demo.report_weather0])
  /\ Demo.report_weather0 !! u "description" = Some (JStr (u "ясно"))
  /\ Demo.report_data !! u "main" = Some (JDict Demo.report_main)
  /\ Demo.report_main !! u "temp" = Some (JInt 12)
  /\ Demo.report_main !! u "humidity" = Some (JInt 80)
  /\ Demo.report_main !! u "grnd_level" = None
  /\ Demo.report_data !! u "wind" = Some (JDict Demo.report_wind)
  /\ Demo.report_wind !! u "speed" = Some (JInt 3)
  /\ Demo.report_data !! u "sys" = Some (JDict Demo.report_sys)
  /\ Demo.report_sys !! u "sunset" = Some (JInt 1700000000)
  /\ localtime_ok py 1700000000 = true
  /\ get_weather py Demo.key Demo.sochi Demo.idle
     = (Ok (u "🌤 <b>Погода в " ++ Demo.sochi ++ u "</b>" ++ nl
            ++ u "Описание: " ++ u "ясно" ++ nl
            ++ u "Температура: " ++ u "12" ++ u " °C" ++ nl
            ++ u "Влажность: " ++ u "80" ++ u " %" ++ nl
            ++ u "Давление: " ++ u "н/д" ++ u " гПа" ++ nl
            ++ u "Скорость ветра: " ++ u "3" ++ u " м/с" ++ nl
            ++ u "Закат: " ++ u "01:13"),
        emit_event
          (HttpGet weather_url (weather_params Demo.key Demo.sochi))
          Demo.idle).
Proof.
  intros r py.
  assert (Hst : (200 <= status_code r < 300)%Z) by (simpl; lia).
  pose proof (get_weather_report py Demo.key Demo.sochi Demo.idle r
                Demo.report_data Demo.report_weather0 Demo.report_main
                Demo.report_wind Demo.report_sys []
                (JStr (u "ясно")) (JInt 12) (JInt 80) (JInt 3) 1700000000
                eq_refl Hst eq_refl
                ltac:(vm_compute; reflexivity) ltac:(vm_compute; reflexivity)
                ltac:(vm_compute; reflexivity) ltac:(vm_compute; reflexivity)
                ltac:(vm_compute; reflexivity) ltac:(vm_compute; reflexivity)
                ltac:(vm_compute; reflexivity) ltac:(vm_compute; reflexivity)
                ltac:(vm_compute; reflexivity) eq_refl) as [Hrun _].
  repeat (split; [first [exact Hst | vm_compute; reflexivity] |]).
  rewrite Hrun. vm_compute. reflexivity.
Defined.

(** C6 at [/weather Нижний Новгород] and at a bare [/weather]. *)
Lemma weather_command_witness :
  let py := Demo.platform_with
              (GetReturns (Demo.answer 404 (u "Not Found") None)) in
  let update := {| message_text := u "/weather Нижний Новгород";
                   effective_user_id := 42 |} in
  let named := {| args := [u "Нижний"; u "Новгород"] |} in
  let bare := {| args := [] |} in
  (args named <> []
   /\ exists info w1 evs,
        get_weather py Demo.key (u "Нижний Новгород") Demo.idle = (Ok info, w1)
        /\ weather py Demo.key update named Demo.idle
           = (Ok tt, emit_event (ReplyText info None HTML) w1)
        /\ trace w1 = trace Demo.idle ++ evs
        /\ http_requests evs
           = [(weather_url, weather_params Demo.key (u "Нижний Новгород"))]
        /\ replies evs = [])
  /\ (args bare = []
      /\ exists w' evs,
           weather py Demo.key update bare Demo.idle = (Ok tt, w')
           /\ trace w' = trace Demo.idle ++ evs
           /\ replies evs = [u "❌ Укажите город после команды /weather"]
           /\ http_requests evs = []).
Proof.
  intros py update named bare.
  assert (Hnamed : args named <> []) by discriminate.
  assert (Hcity : join (u " ") (args named) = u "Нижний Новгород")
    by (vm_compute; reflexivity).
  split.
  - split; [exact Hnamed |].
    pose proof (proj1 (weather_command py Demo.key update named Demo.idle)
                  Hnamed) as Hrun.
    cbv zeta in Hrun. rewrite Hcity in Hrun. exact Hrun.
  - split; [reflexivity |].
    exact (proj2 (weather_command py Demo.key update bare Demo.idle) eq_refl).
Defined.

(** C7 with [TG_KEY] in the .env file and no [API_KEY] anywhere. *)
Lemma script_requires_secrets_witness :
  let py := Demo.platform_with (GetRaises (u "unreachable")) in
  let dotenv : gmap pystr pystr := {[ u "TG_KEY" := u "123456:token" ]} in
  let environ : gmap pystr pystr := {[ u "PORT" := u "10000" ]} in
  let updates :=
    [Text {| message_text := u "Сочи"; effective_user_id := 42 |}
       {| args := [] |}] in
  (getenv (load_dotenv dotenv environ) (u "API_KEY") = None
   \/ getenv (load_dotenv dotenv environ) (u "TG_KEY") = None)
  /\ exists msg,
       script py dotenv environ updates Demo.idle
       = (Raise (ValueError msg), Demo.idle).
Proof.
  intros py dotenv environ updates.
  assert (Habsent : getenv (load_dotenv dotenv environ) (u "API_KEY") = None
                    \/ getenv (load_dotenv dotenv environ) (u "TG_KEY") = None)
    by (left; vm_compute; reflexivity).
  split; [exact Habsent |].
  exact (script_requires_secrets py dotenv environ updates Demo.idle Habsent).
Defined.

(** * Further properties *)

(** ** When the lookup answers with a report *)

Lemma getitem_str_ok o k v :
  getitem o (KStr k) = Ok v -> exists d, o = JDict d /\ d !! k = Some v.
Proof.
  unfold getitem. intros H. destruct o; try discriminate.
  destruct (d !! k) as [v' |] eqn:Hk; [| discriminate].
  injection H as ->. eauto.
Qed.

Lemma getitem_zero_ok o v :
  getitem o (KInt 0) = Ok v ->
  (exists others, o = JList (v :: others))
  \/ (exists c rest, o = JStr (c :: rest) /\ v = JStr [c]).
Proof.
  unfold getitem. intros H. destruct o; try discriminate; simpl in H.
  - destruct s as [| c rest]; [discriminate |].
    injection H as <-. right. eauto.
  - destruct items as [| v' others]; [discriminate |].
    injection H as ->. left. eauto.
Qed.

(** The [try] block ends normally only if every statement of it did. *)
Lemma try_block_ok py key city w s fr :
  get_weather_try py key city {| r_var := None; outer := w |} = (Ok s, fr) ->
  exists r data weather weather0 description main temp humidity pressure
         wind speed sys sunset dt,
    requests_get py weather_url (weather_params key city) = GetReturns r
    /\ raise_for_status r = Ok tt
    /\ json_of r = Ok data
    /\ getitem data (KStr (u "weather")) = Ok weather
    /\ getitem weather (KInt 0) = Ok weather0
    /\ getitem weather0 (KStr (u "description")) = Ok description
    /\ getitem data (KStr (u "main")) = Ok main
    /\ getitem main (KStr (u "temp")) = Ok temp
    /\ getitem main (KStr (u "humidity")) = Ok humidity
    /\ get_default main (u "grnd_level") (JStr (u "н/д")) = Ok pressure
    /\ getitem data (KStr (u "wind")) = Ok wind
    /\ getitem wind (KStr (u "speed")) = Ok speed
    /\ getitem data (KStr (u "sys")) = Ok sys
    /\ getitem sys (KStr (u "sunset")) = Ok sunset
    /\ fromtimestamp py sunset = Ok dt
    /\ s = u "🌤 <b>Погода в " ++ city ++ u "</b>" ++ nl
           ++ u "Описание: " ++ format_value py description ++ nl
           ++ u "Температура: " ++ format_value py temp ++ u " °C" ++ nl
           ++ u "Влажность: " ++ format_value py humidity ++ u " %" ++ nl
           ++ u "Давление: " ++ format_value py pressure ++ u " гПа" ++ nl
           ++ u "Скорость ветра: " ++ format_value py speed ++ u " м/с" ++ nl
           ++ u "Закат: " ++ strftime_HM dt.
Proof.
  unfold get_weather_try, bind, in_world, http_get, assign_r, eval, ret.
  simpl. intros Hrun.
  destruct (requests_get py weather_url (weather_params key city))
    as [detail | r] eqn:Hget; [discriminate |].
  simpl in Hrun.
  destruct (raise_for_status r) as [[] |] eqn:Hst; [| discriminate].
  destruct (json_of r) as [data |] eqn:Hdata; [| discriminate].
  destruct (getitem data (KStr (u "weather"))) as [weather |] eqn:Hw;
    [| discriminate].
  destruct (getitem weather (KInt 0)) as [weather0 |] eqn:Hw0; [| discriminate].
  destruct (getitem weather0 (KStr (u "description"))) as [description |]
    eqn:Hdesc; [| discriminate].
  destruct (getitem data (KStr (u "main"))) as [main |] eqn:Hmain;
    [| discriminate].
  destruct (getitem main (KStr (u "temp"))) as [temp |] eqn:Htemp;
    [| discriminate].
  destruct (getitem main (KStr (u "humidity"))) as [humidity |] eqn:Hhum;
    [| discriminate].
  destruct (get_default main (u "grnd_level") (JStr (u "н/д")))
    as [pressure |] eqn:Hpress; [| discriminate].
  destruct (getitem data (KStr (u "wind"))) as [wind |] eqn:Hwind;
    [| discriminate].
  destruct (getitem wind (KStr (u "speed"))) as [speed |] eqn:Hspeed;
    [| discriminate].
  destruct (getitem data (KStr (u "sys"))) as [sys |] eqn:Hsys;
    [| discriminate].
  destruct (getitem sys (KStr (u "sunset"))) as [sunset |] eqn:Hsunset;
    [| discriminate].
  destruct (fromtimestamp py sunset) as [dt |] eqn:Hdt; [| discriminate].
  injection Hrun as <- _.
  exists r, data, weather, weather0, description, main, temp, humidity,
    pressure, wind, speed, sys, sunset, dt.
  repeat (split; [done |]). done.
Qed.

Lemma raise_for_status_ok_status r :
  raise_for_status r = Ok tt -> ~ (400 <= status_code r < 600)%Z.
Proof.
  intros Hok Hst. rewrite (raise_for_status_error r Hst) in Hok. discriminate.
Qed.

(** With a status that is no error, the lookup either returns what the
    [try] block built, or the message of the second [except] clause for
    an exception that is no [HTTPError]. *)
Lemma lookup_other_status_cases py key city w r :
  requests_get py weather_url (weather_params key city) = GetReturns r ->
  ~ (400 <= status_code r < 600)%Z ->
  (exists s fr,
     get_weather_try py key city {| r_var := None; outer := w |} = (Ok s, fr)
     /\ get_weather py key city w
        = (Ok s, emit_event (HttpGet weather_url (weather_params key city)) w))
  \/ (exists e fr,
        get_weather_try py key city {| r_var := None; outer := w |}
        = (Raise e, fr)
        /\ is_HTTPError e = false
        /\ get_weather py key city w
           = (Ok (u "❌ Произошла ошибка: " ++ exception_text py e),
              emit_event
                (Log ERROR
                   (u "Неожиданная ошибка при запросе погоды для " ++ city
                    ++ u ": " ++ exception_text py e))
                (emit_event (HttpGet weather_url (weather_params key city)) w))).
Proof.
  intros Hget Hst.
  destruct (try_other_status py key city w r Hget Hst) as (res & Hrun & Hres).
  unfold get_weather, try_except. rewrite Hrun.
  destruct res as [s | e].
  - left. eauto.
  - right. exists e. eexists. split; [done |].
    pose proof (Hres e eq_refl) as Hno. split; [done |].
    unfold get_weather_except. by rewrite Hno.
Qed.

Lemma cross_mark_not_found :
  u "❌ Город '" = u "❌" ++ u " Город '".
Proof. vm_compute. reflexivity. Qed.

Lemma cross_mark_api_error :
  u "❌ Ошибка API: " = u "❌" ++ u " Ошибка API: ".
Proof. vm_compute. reflexivity. Qed.

Lemma cross_mark_failure :
  u "❌ Произошла ошибка: " = u "❌" ++ u " Произошла ошибка: ".
Proof. vm_compute. reflexivity. Qed.

(** X1. When [requests.get] itself raises (no connection, a timeout),
    [get_weather] returns the generic message followed by the text of
    the exception, and logs that text once at the error level; the
    first [except] clause, which reads [r], is not entered. *)
Theorem get_weather_request_failure (py : platform) (key city : pystr)
    (w : world) (detail : pystr) :
  requests_get py weather_url (weather_params key city) = GetRaises detail ->
  exists w' evs,
    get_weather py key city w
    = (Ok (u "❌ Произошла ошибка: " ++ exc_str py (RequestFailure detail)), w')
    /\ trace w' = trace w ++ evs
    /\ user_data w' = user_data w
    /\ logged ERROR evs
       = [u "Неожиданная ошибка при запросе погоды для " ++ city ++ u ": "
          ++ exc_str py (RequestFailure detail)]
    /\ http_requests evs = [(weather_url, weather_params key city)].
Proof.
  intros Hget. rewrite (lookup_request_fails py key city w detail Hget).
  eexists _, [HttpGet _ _; Log ERROR _].
  split; [done |]. split; [| done].
  unfold emit_event. simpl. by rewrite <- app_assoc.
Qed.

(** X2. When the response has no error status but its body is not JSON,
    [get_weather] returns the generic message with the text of the
    decoding error and logs one error. *)
Theorem get_weather_body_not_json (py : platform) (key city : pystr)
    (w : world) (r : response) :
  requests_get py weather_url (weather_params key city) = GetReturns r ->
  ~ (400 <= status_code r < 600)%Z ->
  body r = None ->
  exists w' evs,
    get_weather py key city w
    = (Ok (u "❌ Произошла ошибка: " ++ exc_str py JSONDecodeError), w')
    /\ trace w' = trace w ++ evs
    /\ logged ERROR evs
       = [u "Неожиданная ошибка при запросе погоды для " ++ city ++ u ": "
          ++ exc_str py JSONDecodeError].
Proof.
  intros Hget Hst Hbody.
  eexists _, [HttpGet weather_url (weather_params key city); Log ERROR _].
  unfold get_weather, try_except, get_weather_try, bind, in_world, http_get.
  simpl. rewrite Hget. simpl.
  rewrite raise_for_status_pass by done.
  unfold json_of. rewrite Hbody. simpl.
  split; [reflexivity |]. simpl. split; [| done].
  by rewrite <- app_assoc.
Qed.

(** X3. [get_weather] returns something other than a message that
    begins with the cross mark only when the request returned a
    response without an error status whose JSON has every field the
    report needs: [weather] is a list beginning with a dict that has
    [description], [main] has [temp] and [humidity], [wind] has [speed],
    [sys] has a [sunset] that [datetime.fromtimestamp] accepts.  Then
    the only thing that has happened is the request. *)
Theorem get_weather_report_only_if (py : platform) (key city : pystr)
    (w w' : world) (s : pystr) :
  get_weather py key city w = (Ok s, w') ->
  (forall rest, s <> u "❌" ++ rest) ->
  exists r data weather0 others main wind sys description temp humidity
         speed sunset dt,
    requests_get py weather_url (weather_params key city) = GetReturns r
    /\ ~ (400 <= status_code r < 600)%Z
    /\ body r = Some (JDict data)
    /\ data !! u "weather" = Some (JList (JDict weather0 :: others))
    /\ weather0 !! u "description" = Some description
    /\ data !! u "main" = Some (JDict main)
    /\ main !! u "temp" = Some temp
    /\ main !! u "humidity" = Some humidity
    /\ data !! u "wind" = Some (JDict wind)
    /\ wind !! u "speed" = Some speed
    /\ data !! u "sys" = Some (JDict sys)
    /\ sys !! u "sunset" = Some sunset
    /\ fromtimestamp py sunset = Ok dt
    /\ w' = emit_event (HttpGet weather_url (weather_params key city)) w.
Proof.
  intros Hrun Hreport.
  destruct (requests_get py weather_url (weather_params key city))
    as [detail | r] eqn:Hget.
  { rewrite (lookup_request_fails py key city w detail Hget) in Hrun.
    injection Hrun as <- _. exfalso.
    eapply Hreport. rewrite cross_mark_failure, <- app_assoc. reflexivity. }
  destruct (decide (400 <= status_code r < 600)%Z) as [Hst | Hst].
  { exfalso. destruct (decide (status_code r = 404%Z)) as [H404 | H404].
    - rewrite (lookup_not_found py key city w r Hget H404) in Hrun.
      injection Hrun as <- _.
      eapply Hreport. rewrite cross_mark_not_found, <- app_assoc. reflexivity.
    - rewrite (lookup_api_error py key city w r Hget Hst H404) in Hrun.
      injection Hrun as <- _.
      eapply Hreport. rewrite cross_mark_api_error, <- app_assoc. reflexivity. }
  destruct (lookup_other_status_cases py key city w r Hget Hst)
    as [(s' & fr & Htry & Hlook) | (e & fr & _ & _ & Hlook)].
  2:{ rewrite Hlook in Hrun. injection Hrun as <- _. exfalso.
      eapply Hreport. rewrite cross_mark_failure, <- app_assoc. reflexivity. }
  rewrite Hlook in Hrun. injection Hrun as <- <-.
  destruct (try_block_ok py key city w s' fr Htry)
    as (r' & data & weather & weather0 & description & main & temp & humidity
        & pressure & wind & speed & sys & sunset & dt
        & Hget' & _ & Hjson & Hw & Hw0 & Hdesc & Hmain & Htemp & Hhum & _
        & Hwind & Hspeed & Hsys & Hsunset & Hdt & _).
  rewrite Hget in Hget'. injection Hget' as <-.
  unfold json_of in Hjson.
  destruct (body r) as [data' |] eqn:Hbody; [| discriminate].
  injection Hjson as ->.
  apply getitem_str_ok in Hw as (d & -> & Hw).
  apply getitem_str_ok in Hdesc as (d0 & -> & Hdesc).
  apply getitem_zero_ok in Hw0 as [[others ->] | (c & rest & _ & [=])].
  apply getitem_str_ok in Hmain as (d1 & [= <-] & Hmain).
  apply getitem_str_ok in Htemp as (dm & -> & Htemp).
  apply getitem_str_ok in Hhum as (dm' & [= <-] & Hhum).
  apply getitem_str_ok in Hwind as (d2 & [= <-] & Hwind).
  apply getitem_str_ok in Hspeed as (dw & -> & Hspeed).
  apply getitem_str_ok in Hsys as (d3 & [= <-] & Hsys).
  apply getitem_str_ok in Hsunset as (ds & -> & Hsunset).
  exists r, d, d0, others, dm, dw, ds, description, temp, humidity, speed,
    sunset, dt.
  repeat (split; [done |]). done.
Qed.

(** X4. A JSON object that lacks one of the keys [weather], [main],
    [wind] or [sys] is answered with the generic message and one error
    record, whatever else it holds. *)
Theorem get_weather_missing_key (py : platform) (key city : pystr)
    (w : world) (r : response) (data : gmap pystr json) :
  requests_get py weather_url (weather_params key city) = GetReturns r ->
  ~ (400 <= status_code r < 600)%Z ->
  body r = Some (JDict data) ->
  data !! u "weather" = None \/ data !! u "main" = None
  \/ data !! u "wind" = None \/ data !! u "sys" = None ->
  exists e w' evs,
    get_weather py key city w
    = (Ok (u "❌ Произошла ошибка: " ++ exception_text py e), w')
    /\ is_HTTPError e = false
    /\ trace w' = trace w ++ evs
    /\ logged ERROR evs
       = [u "Неожиданная ошибка при запросе погоды для " ++ city ++ u ": "
          ++ exception_text py e].
Proof.
  intros Hget Hst Hbody Hmissing.
  destruct (lookup_other_status_cases py key city w r Hget Hst)
    as [(s & fr & Htry & _) | (e & fr & _ & Hno & Hlook)].
  - exfalso.
    destruct (try_block_ok py key city w s fr Htry)
      as (r' & data' & weather & weather0 & description & main & temp
          & humidity & pressure & wind & speed & sys & sunset & dt
          & Hget' & _ & Hjson & Hw & _ & _ & Hmain & _ & _ & _
          & Hwind & _ & Hsys & _).
    rewrite Hget in Hget'. injection Hget' as <-.
    unfold json_of in Hjson. rewrite Hbody in Hjson. injection Hjson as <-.
    apply getitem_str_ok in Hw as (d & [= <-] & Hw).
    apply getitem_str_ok in Hmain as (d1 & [= <-] & Hmain).
    apply getitem_str_ok in Hwind as (d2 & [= <-] & Hwind).
    apply getitem_str_ok in Hsys as (d3 & [= <-] & Hsys).
    destruct Hmissing as [H | [H | [H | H]]]; congruence.
  - exists e. eexists _, [HttpGet weather_url (weather_params key city);
                          Log ERROR _].
    split; [exact Hlook |]. split; [done |]. split; [| done].
    unfold emit_event. simpl. by rewrite <- app_assoc.
Qed.

(** X5. When [weather] is an empty list, the subscript [[0]] raises
    IndexError, and the answer is the generic message with its text and
    one error record. *)
Theorem get_weather_empty_weather_list (py : platform) (key city : pystr)
    (w : world) (r : response) (data : gmap pystr json) :
  requests_get py weather_url (weather_params key city) = GetReturns r ->
  ~ (400 <= status_code r < 600)%Z ->
  body r = Some (JDict data) ->
  data !! u "weather" = Some (JList []) ->
  exists w' evs,
    get_weather py key city w
    = (Ok (u "❌ Произошла ошибка: " ++ exc_str py IndexError), w')
    /\ trace w' = trace w ++ evs
    /\ logged ERROR evs
       = [u "Неожиданная ошибка при запросе погоды для " ++ city ++ u ": "
          ++ exc_str py IndexError].
Proof.
  intros Hget Hst Hbody Hweather.
  eexists _, [HttpGet weather_url (weather_params key city); Log ERROR _].
  unfold get_weather, try_except, get_weather_try, bind, in_world, http_get.
  simpl. rewrite Hget. simpl.
  rewrite raise_for_status_pass by done.
  unfold json_of. rewrite Hbody. simpl. rewrite Hweather. simpl.
  split; [reflexivity |]. simpl. split; [| done].
  by rewrite <- app_assoc.
Qed.

(** X6. Every answer of [get_weather] is of one of four kinds, and the
    error log follows the kind: a report that opens with the city, or
    the city-not-found message, with no error logged; or the API-error
    or the generic message, with exactly one error logged, which ends
    with the same error text that the answer shows.  The session is
    never touched. *)
Theorem get_weather_outcomes (py : platform) (key city : pystr) (w : world) :
  exists s w' evs,
    get_weather py key city w = (Ok s, w')
    /\ trace w' = trace w ++ evs
    /\ user_data w' = user_data w
    /\ ((exists rest, s = u "🌤 <b>Погода в " ++ city ++ u "</b>" ++ rest)
        /\ logged ERROR evs = []
        \/ s = u "❌ Город '" ++ city ++ u "' не найден."
           /\ logged ERROR evs = []
        \/ (exists text,
              s = u "❌ Ошибка API: " ++ text
              /\ logged ERROR evs
                 = [u "HTTP ошибка при запросе погоды для " ++ city ++ u ": "
                    ++ text])
        \/ (exists text,
              s = u "❌ Произошла ошибка: " ++ text
              /\ logged ERROR evs
                 = [u "Неожиданная ошибка при запросе погоды для " ++ city
                    ++ u ": " ++ text])).
Proof.
  assert (Hone : forall e, emit_event e w
                 = {| trace := trace w ++ [e]; user_data := user_data w |})
    by done.
  assert (Htwo : forall e1 e2, emit_event e2 (emit_event e1 w)
                 = {| trace := trace w ++ [e1; e2]; user_data := user_data w |}).
  { intros e1 e2. unfold emit_event. simpl. by rewrite <- app_assoc. }
  destruct (requests_get py weather_url (weather_params key city))
    as [detail | r] eqn:Hget.
  { rewrite (lookup_request_fails py key city w detail Hget), Htwo.
    eexists _, _, _. split; [done |]. split; [done |]. split; [done |].
    right. right. right. eexists. split; done. }
  destruct (decide (400 <= status_code r < 600)%Z) as [Hst | Hst].
  { destruct (decide (status_code r = 404%Z)) as [H404 | H404].
    - rewrite (lookup_not_found py key city w r Hget H404), Hone.
      eexists _, _, _. split; [done |]. split; [done |]. split; [done |].
      right. left. split; done.
    - rewrite (lookup_api_error py key city w r Hget Hst H404), Htwo.
      eexists _, _, _. split; [done |]. split; [done |]. split; [done |].
      right. right. left. eexists. split; done. }
  destruct (lookup_other_status_cases py key city w r Hget Hst)
    as [(s & fr & Htry & Hlook) | (e & fr & _ & _ & Hlook)].
  - rewrite Hlook, Hone.
    eexists _, _, _. split; [done |]. split; [done |]. split; [done |].
    left. split; [| done].
    destruct (try_block_ok py key city w s fr Htry)
      as (? & ? & ? & ? & ? & ? & ? & ? & ? & ? & ? & ? & ? & ?
          & _ & _ & _ & _ & _ & _ & _ & _ & _ & _ & _ & _ & _ & _ & _ & ->).
    eexists. reflexivity.
  - rewrite Hlook, Htwo.
    eexists _, _, _. split; [done |]. split; [done |]. split; [done |].
    right. right. right. eexists. split; done.
Qed.

(** ** Trimming and joining *)

(** X7. The city that the free-text handler takes from a message is the
    text without a prefix and a suffix of white space, and it neither
    begins nor ends with white space. *)
Theorem strip_decompose (s : pystr) :
  exists pre post,
    s = pre ++ strip s ++ post
    /\ all_whitespace pre
    /\ all_whitespace post
    /\ (forall c, head (strip s) = Some c -> is_whitespace c = false)
    /\ (forall c, last (strip s) = Some c -> is_whitespace c = false).
Proof.
  destruct (lstrip_decompose s) as (pre & Hpre & Hwpre).
  destruct (rstrip_decompose (lstrip s)) as (post & Hpost & Hwpost).
  exists pre, post. unfold strip.
  split; [by rewrite <- Hpost |].
  split; [done |]. split; [done |].
  apply (strip_ends s).
Qed.

(** X8. Trimming is idempotent: the city a handler has recorded, sent
    again as a message, is taken as it is. *)
Theorem strip_idempotent (s : pystr) : strip (strip s) = strip s.
Proof.
  destruct (strip_ends s) as [Hhead Hlast].
  unfold strip at 1. rewrite lstrip_fixed by exact Hhead.
  by apply rstrip_fixed.
Qed.

(** X9. A message is trimmed to the empty city exactly when it is white
    space only (or empty). *)
Theorem strip_blank (s : pystr) : strip s = [] <-> all_whitespace s.
Proof.
  split.
  - intros Hempty.
    destruct (lstrip_decompose s) as (pre & Hpre & Hwpre).
    destruct (rstrip_decompose (lstrip s)) as (post & Hpost & Hwpost).
    unfold strip in Hempty. rewrite Hempty in Hpost. simpl in Hpost.
    rewrite Hpre, Hpost. by apply Forall_app.
  - intros Hws. unfold strip. by rewrite lstrip_all_whitespace.
Qed.

Lemma is_word_head word :
  is_word word -> exists c, head word = Some c /\ is_whitespace c = false.
Proof.
  intros [Hne Hchars]. destruct word as [| c rest]; [done |].
  exists c. split; [done |]. by apply Forall_cons in Hchars as [? _].
Qed.

Lemma is_word_last word :
  is_word word -> exists c, last word = Some c /\ is_whitespace c = false.
Proof.
  intros [Hne Hchars].
  destruct (last word) as [c |] eqn:Hlast.
  - exists c. split; [done |].
    apply last_Some_elem_of in Hlast.
    by apply (proj1 (Forall_forall _ _) Hchars).
  - by apply last_None in Hlast.
Qed.

Lemma join_head sep word rest :
  word <> [] -> head (join sep (word :: rest)) = head word.
Proof.
  intros Hne. destruct word as [| c word']; [done |].
  by destruct rest.
Qed.

Lemma join_last sep words :
  Forall is_word words -> words <> [] ->
  exists c, last (join sep words) = Some c /\ is_whitespace c = false.
Proof.
  induction 1 as [| word rest Hword Hrest IH]; [done |]. intros _.
  destruct rest as [| word' rest'].
  - simpl. by apply is_word_last.
  - destruct IH as (c & Hlast & Hc); [done |].
    exists c. split; [| done].
    change (join sep (word :: word' :: rest'))
      with (word ++ sep ++ join sep (word' :: rest')).
    by rewrite !last_app, Hlast.
Qed.

(** The words of a command, joined, need no trimming. *)
Lemma strip_join sep words :
  Forall is_word words -> words <> [] ->
  strip (join sep words) = join sep words.
Proof.
  intros Hwords Hne. unfold strip.
  destruct words as [| word rest]; [done |].
  assert (Hword : is_word word) by by apply Forall_cons in Hwords as [? _].
  destruct (is_word_head word Hword) as (c & Hhead & Hc).
  destruct (join_last sep (word :: rest) Hwords Hne) as (c' & Hlast & Hc').
  rewrite lstrip_fixed.
  - apply rstrip_fixed. intros c0. rewrite Hlast. by intros [= <-].
  - intros c0. rewrite join_head by apply Hword. rewrite Hhead.
    by intros [= <-].
Qed.

(** X10. The command [/weather] followed by words and the free-text
    message made of the same words separated by single spaces lead to
    the same lookup and the same reply call.  The command ends as that
    call does and leaves the session alone; the message, when the call
    returns, also records the city in the session and logs the query,
    and when the call raises it ends with the same exception and the
    same world as the command. *)
Theorem weather_command_as_free_text (py : platform) (key : pystr)
    (update update' : Update) (context context' : CallbackContext)
    (w : world) :
  args context <> [] ->
  Forall is_word (args context) ->
  message_text update' = join (u " ") (args context) ->
  let city := join (u " ") (args context) in
  exists info w1,
    get_weather py key city w = (Ok info, w1)
    /\ weather py key update context w
       = (reply_result py info None HTML,
          {| trace := trace w1 ++ [ReplyText info None HTML];
             user_data := user_data w |})
    /\ handle_message py key update' context' w
       = match reply_fails py info None HTML with
         | None =>
             (Ok tt,
              {| trace := trace w1
                          ++ [ ReplyText info None HTML;
                               Log INFO
                                 (u "Пользователь "
                                  ++ decimal (effective_user_id update')
                                  ++ u " запросил погоду для " ++ city) ];
                 user_data := <[u "last_city" := city]> (user_data w) |})
         | Some msg =>
             (Raise (TelegramError msg),
              {| trace := trace w1 ++ [ReplyText info None HTML];
                 user_data := user_data w |})
         end.
Proof.
  intros Hne Hwords Htext city.
  destruct (handle_message_run py key update' context' w)
    as (info & w1 & evs & Hrun & _ & Hdata & _ & _ & _ & Hmessage).
  rewrite Htext, (strip_join _ _ Hwords Hne) in Hrun, Hmessage.
  fold city in Hrun, Hmessage.
  exists info, w1. split; [done |]. split; [| exact Hmessage].
  unfold weather. subst city.
  destruct (args context) as [| a rest]; [done |].
  unfold bind. rewrite Hrun. unfold reply_text, emit_event. by rewrite Hdata.
Qed.

(** ** Printing integers *)

Lemma decimal_digits_acc fuel n acc :
  decimal_digits fuel n acc = decimal_digits fuel n [] ++ acc.
Proof.
  revert n acc. induction fuel as [| fuel IH]; intros n acc; [done |].
  simpl. destruct (n <? 10)%N; [done |].
  rewrite IH, (IH _ [_]). by rewrite <- app_assoc.
Qed.

Lemma digits_value_snoc s c :
  digits_value (s ++ [c]) = (10 * digits_value s + (c - zero_char))%N.
Proof. unfold digits_value. by rewrite foldl_app. Qed.

Lemma decimal_digits_value fuel n :
  (n < 10 ^ N.of_nat fuel)%N -> digits_value (decimal_digits fuel n []) = n.
Proof.
  revert n. induction fuel as [| fuel IH]; intros n Hn.
  { change (10 ^ N.of_nat 0)%N with 1%N in Hn.
    unfold digits_value. simpl. lia. }
  simpl. destruct (N.ltb_spec n 10) as [Hsmall | Hbig].
  - unfold digits_value, zero_char. simpl. rewrite N.mod_small by done. lia.
  - rewrite decimal_digits_acc, digits_value_snoc, IH.
    + unfold zero_char. rewrite (N.add_comm 48), N.add_sub.
      symmetry. by apply N.div_mod.
    + rewrite Nat2N.inj_succ, N.pow_succ_r' in Hn.
      apply N.Div0.div_lt_upper_bound. lia.
Qed.

Lemma decimal_digits_range fuel n :
  Forall (fun c => (48 <= c <= 57)%N) (decimal_digits fuel n []).
Proof.
  revert n. induction fuel as [| fuel IH]; intros n; [apply Forall_nil_2 |].
  assert (Hdigit : (48 <= zero_char + n mod 10 <= 57)%N).
  { assert (n mod 10 < 10)%N by by apply N.mod_upper_bound.
    unfold zero_char. generalize dependent (n mod 10)%N. intros; lia. }
  simpl. destruct (n <? 10)%N.
  - by apply Forall_singleton.
  - rewrite decimal_digits_acc. apply Forall_app. split; [apply IH |].
    by apply Forall_singleton.
Qed.

Lemma decimal_fuel_enough n :
  (n < 10 ^ N.of_nat (S (N.to_nat (N.log2 n))))%N.
Proof.
  rewrite Nat2N.inj_succ, N2Nat.id.
  destruct (decide (n = 0%N)) as [-> | Hpos]; [done |].
  apply N.lt_le_trans with (2 ^ N.succ (N.log2 n))%N.
  - apply N.log2_spec. lia.
  - apply N.pow_le_mono_l. lia.
Qed.

Lemma decimal_N_value n : digits_value (decimal_N n) = n.
Proof. apply decimal_digits_value, decimal_fuel_enough. Qed.

Lemma minus_sign : u "-" = [45%N].
Proof. vm_compute. reflexivity. Qed.

(** X11. The decimal numeral printed for an integer (a user id in the
    log, a status in an error text, a number of the report) denotes
    that integer, so different integers are printed differently; for a
    natural number it consists of digits only. *)
Theorem decimal_round_trip (z : Z) (n : N) :
  int_value (decimal z) = z
  /\ Forall (fun c => 48 <= c <= 57)%N (decimal (Z.of_N n)).
Proof.
  split.
  2:{ unfold decimal. destruct (Z.ltb_spec (Z.of_N n) 0) as [Hneg | _]; [lia |].
      apply decimal_digits_range. }
  unfold decimal. destruct (Z.ltb_spec z 0) as [Hneg | Hpos].
  - rewrite minus_sign. simpl.
    rewrite decimal_N_value. lia.
  - pose proof (decimal_digits_range (S (N.to_nat (N.log2 (Z.to_N z))))
                  (Z.to_N z)) as Hrange.
    fold (decimal_N (Z.to_N z)) in Hrange.
    pose proof (decimal_N_value (Z.to_N z)) as Hvalue.
    unfold int_value.
    destruct (decimal_N (Z.to_N z)) as [| c rest] eqn:Hdec.
    + unfold digits_value in *. simpl in *. lia.
    + apply Forall_cons in Hrange as [Hc _].
      assert (Hne : c <> 45%N) by lia.
      rewrite Hvalue.
      destruct c as [| p]; [lia |].
      do 6 (destruct p as [p | p |]; try lia); try (rewrite Z2N.id; lia).
Qed.

(** ** The dispatcher and the polling loop *)

Lemma start_is_not_weather : u "start" <> u "weather".
Proof. vm_compute. discriminate. Qed.

Lemma help_is_not_weather : u "help" <> u "weather".
Proof. vm_compute. discriminate. Qed.

Ltac destruct_result :=
  match goal with
  | |- context [match ?x with Ok _ => _ | Raise _ => _ end] =>
      destruct x; simpl; try done
  end.

(** The [try] block does the same in every world: only the trace it
    extends differs. *)
Lemma try_block_uniform py key city w w0 :
  get_weather_try py key city {| r_var := None; outer := w |}
  = ((get_weather_try py key city {| r_var := None; outer := w0 |}).1,
     {| r_var :=
          r_var (get_weather_try py key city {| r_var := None; outer := w0 |}).2;
        outer := emit_event (HttpGet weather_url (weather_params key city)) w |}).
Proof.
  unfold get_weather_try, bind, in_world, http_get, assign_r, eval, ret.
  simpl.
  destruct (requests_get py weather_url (weather_params key city)); [done |].
  simpl. repeat destruct_result.
Qed.

(** So the answer of a lookup does not depend on the world. *)
Lemma lookup_answer py key city w info w1 :
  get_weather py key city w = (Ok info, w1) -> answer py key city = info.
Proof.
  intros Hrun. unfold answer.
  set (w0 := {| trace := []; user_data := ∅ |}).
  assert (Hsame : (get_weather py key city w0).1 = (get_weather py key city w).1).
  { unfold get_weather, try_except.
    rewrite (try_block_uniform py key city w w0).
    destruct (get_weather_try py key city {| r_var := None; outer := w0 |})
      as [[s | e] fr0]; [done |].
    simpl. unfold get_weather_except, bind, load_r, in_world, logger_error, ret.
    simpl. destruct (is_HTTPError e); [| done].
    destruct (r_var fr0) as [r |]; [| done].
    simpl. by destruct (status_code r =? 404)%Z. }
  by rewrite Hsame, Hrun.
Qed.

(** What one update does: the trace grows by exactly one reply call
    when a handler is registered and by exactly one request when the
    handler looks up a city (sent with the key of the configuration);
    the handler ends normally or with the error of its reply call; and
    the session changes only for a free-text message whose reply went
    through. *)
Lemma dispatch_run py cfg i w :
  exists res w' evs,
    dispatch py cfg i w = (res, w')
    /\ trace w' = trace w ++ evs
    /\ length (replies evs) = (if is_answered i then 1 else 0)
    /\ http_requests evs
       = (if needs_lookup i
          then [(weather_url,
                 weather_params (API_KEY cfg)
                   match i with
                   | Text update _ => strip (message_text update)
                   | Command _ _ context => join (u " ") (args context)
                   end)]
          else [])
    /\ (res = Ok tt \/ exists msg, res = Raise (TelegramError msg))
    /\ (is_answered i = false -> res = Ok tt /\ evs = [])
    /\ user_data w'
       = match i with
         | Text update _ =>
             if is_delivered py (API_KEY cfg) (message_text update)
             then <[u "last_city" := strip (message_text update)]> (user_data w)
             else user_data w
         | Command _ _ _ => user_data w
         end.
Proof.
  assert (Hends : forall text markup mode,
            reply_result py text markup mode = Ok tt
            \/ exists msg, reply_result py text markup mode
                           = Raise (TelegramError msg)).
  { intros text markup mode. unfold reply_result.
    destruct (reply_fails py text markup mode); eauto. }
  destruct i as [name update context | update context]; simpl.
  - destruct (decide (name = u "start")) as [-> | Hstart].
    { eexists _, _, [ReplyText _ _ _]. split; [reflexivity |].
      split; [done |].
      repeat case_bool_decide; try done;
        try (by destruct start_is_not_weather);
        (split; [done |]; split; [done |]; split; [apply Hends | done]). }
    destruct (decide (name = u "help")) as [-> | Hhelp].
    { eexists _, _, [ReplyText _ _ _]. split; [reflexivity |].
      split; [done |].
      repeat case_bool_decide; try done;
        try (by destruct help_is_not_weather);
        (split; [done |]; split; [done |]; split; [apply Hends | done]). }
    destruct (decide (name = u "weather")) as [-> | Hweather].
    { unfold weather.
      destruct (args context) as [| a rest] eqn:Hargs.
      - eexists _, _, [ReplyText _ _ _]. split; [reflexivity |].
        split; [done |].
        repeat case_bool_decide; try done;
          (split; [done |]; split; [done |]; split; [apply Hends | done]).
      - destruct (lookup_in_handler py (API_KEY cfg)
                    (join (u " ") (a :: rest)) w)
          as (info & w1 & evs & Hrun & Htrace & Hdata & Hreq & Hrep & _).
        unfold bind. rewrite Hrun.
        eexists _, _, (evs ++ [ReplyText info None HTML]).
        split; [reflexivity |]. simpl.
        rewrite Htrace, Hdata, replies_app, http_requests_app, Hrep, Hreq.
        rewrite <- app_assoc.
        repeat case_bool_decide; try done;
          (split; [done |]; split; [done |]; split; [done |];
           split; [apply Hends | done]). }
    eexists _, _, []. split; [reflexivity |]. simpl.
    rewrite app_nil_r.
    repeat case_bool_decide; try done.
    repeat (split; [done |]). split; [by left |]. done.
  - destruct (handle_message_run py (API_KEY cfg) update context w)
      as (info & w1 & evs & Hrun & Htrace & Hdata & Hreq & Hrep & _ & Hrun').
    rewrite Hrun'. unfold is_delivered.
    rewrite (lookup_answer _ _ _ _ _ _ Hrun).
    destruct (reply_fails py info None HTML) as [msg |].
    + eexists _, _, (evs ++ [ReplyText info None HTML]).
      split; [reflexivity |]. simpl.
      rewrite Htrace, replies_app, http_requests_app, Hrep, Hreq.
      rewrite <- app_assoc. repeat (split; [done |]).
      split; [right; by exists msg |]. done.
    + eexists _, _, (evs ++ [ReplyText info None HTML; Log INFO _]).
      split; [reflexivity |]. simpl.
      rewrite Htrace, replies_app, http_requests_app, Hrep, Hreq.
      rewrite <- app_assoc. repeat (split; [done |]).
      split; [by left |]. done.
Qed.

(** X12. Whatever the update, the only exception its handler lets out
    is the error of its reply call; the update is answered with exactly
    one reply call when a handler is registered for it and nothing at
    all happens otherwise, and the weather API is called once for a
    free-text message or a /weather command with arguments and not at
    all otherwise. *)
Theorem dispatch_answers_once (py : platform) (cfg : secrets) (i : incoming)
    (w : world) :
  exists res w' evs,
    dispatch py cfg i w = (res, w')
    /\ trace w' = trace w ++ evs
    /\ length (replies evs) = (if is_answered i then 1 else 0)
    /\ length (http_requests evs) = (if needs_lookup i then 1 else 0)
    /\ (res = Ok tt \/ exists msg, res = Raise (TelegramError msg))
    /\ (is_answered i = false -> res = Ok tt /\ evs = []).
Proof.
  destruct (dispatch_run py cfg i w)
    as (res & w' & evs & Hrun & Htrace & Hrep & Hreq & Hres & Hnone & _).
  exists res, w', evs. rewrite Hreq.
  repeat (split; [done |]). split; [by destruct (needs_lookup i) |].
  split; done.
Qed.

Lemma session_of_insert (sessions : gmap Z (gmap pystr pystr)) (uid uid' : Z)
    (d : gmap pystr pystr) :
  session_of (<[uid' := d]> sessions) uid
  = if decide (uid' = uid) then d else session_of sessions uid.
Proof.
  unfold session_of. destruct (decide (uid' = uid)) as [-> | Hne].
  - by rewrite lookup_insert_eq.
  - by rewrite lookup_insert_ne.
Qed.

(** The loop over a batch of updates. *)
Lemma process_updates_run py cfg updates sessions w :
  exists sessions' w' evs,
    process_updates py cfg updates sessions w = (Ok sessions', w')
    /\ trace w' = trace w ++ evs
    /\ length (replies evs) = length (filter is_answered updates)
    /\ length (http_requests evs) = length (filter needs_lookup updates)
    /\ Forall (sent_with (API_KEY cfg)) (http_requests evs)
    /\ forall uid,
         session_of sessions' uid
         = match last_recorded py (API_KEY cfg) uid updates with
           | Some city => <[u "last_city" := city]> (session_of sessions uid)
           | None => session_of sessions uid
           end.
Proof.
  revert sessions w. induction updates as [| i rest IH]; intros sessions w.
  { exists sessions, w, []. simpl. rewrite app_nil_r.
    repeat (split; [done |]). done. }
  set (w0 := {| trace := trace w;
                user_data := session_of sessions (sender i) |}).
  destruct (dispatch_run py cfg i w0)
    as (res & w1 & evs1 & Hrun1 & Htrace1 & Hrep1 & Hreq1 & Hres1 & _ & Hdata1).
  assert (Hstep : in_session (sender i) sessions
                    (try_except (dispatch py cfg i) (fun _ => ret tt)) w
                  = (Ok (<[sender i := user_data w1]> sessions), w1)).
  { unfold in_session, try_except. fold w0. rewrite Hrun1.
    by destruct Hres1 as [-> | [msg ->]]. }
  destruct (IH (<[sender i := user_data w1]> sessions) w1)
    as (sessions' & w' & evs & Hrun & Htrace & Hrep & Hreq & Hkey & Hdata).
  exists sessions', w', (evs1 ++ evs).
  split.
  { simpl. unfold bind. rewrite Hstep. exact Hrun. }
  split; [by rewrite Htrace, Htrace1, <- app_assoc |].
  rewrite replies_app, http_requests_app, !length_app, Hrep, Hreq, Hrep1, Hreq1.
  rewrite !filter_cons.
  split.
  { by destruct (is_answered i). }
  split.
  { by destruct (needs_lookup i). }
  split.
  { apply Forall_app. split; [| done].
    destruct (needs_lookup i); [| apply Forall_nil_2].
    apply Forall_singleton. eexists. reflexivity. }
  intros uid. rewrite Hdata, session_of_insert, Hdata1. simpl.
  destruct i as [name update context | update context]; simpl.
  - destruct (decide (effective_user_id update = uid)) as [<- | Hne];
      by destruct (last_recorded py (API_KEY cfg) _ rest).
  - destruct (decide (effective_user_id update = uid)) as [<- | Hne].
    + rewrite bool_decide_eq_true_2 by done. simpl.
      destruct (is_delivered py (API_KEY cfg) (message_text update));
        destruct (last_recorded py (API_KEY cfg) _ rest); try done.
      apply insert_insert_eq.
    + rewrite bool_decide_eq_false_2 by done. simpl.
      by destruct (last_recorded py (API_KEY cfg) uid rest).
Qed.


(** X14. A handler that ends with the error of its reply call does not
    stop the loop: every update of a batch is dispatched.  The loop
    makes as many reply calls as there are updates with a registered
    handler and as many requests as there are free-text messages and
    /weather commands with arguments; every request goes to the weather
    URL with the configured key; what was in the trace stays. *)
Theorem process_updates_traffic (py : platform) (cfg : secrets)
    (updates : list incoming) (sessions : gmap Z (gmap pystr pystr))
    (w : world) :
  exists sessions' w' evs,
    process_updates py cfg updates sessions w = (Ok sessions', w')
    /\ trace w' = trace w ++ evs
    /\ length (replies evs) = length (filter is_answered updates)
    /\ length (http_requests evs) = length (filter needs_lookup updates)
    /\ Forall (sent_with (API_KEY cfg)) (http_requests evs).
Proof.
  destruct (process_updates_run py cfg updates sessions w)
    as (sessions' & w' & evs & Hrun & Htrace & Hrep & Hreq & Hkey & _).
  by exists sessions', w', evs.
Qed.

(** ** Start-up with and without the secrets *)

Lemma getenv_load_dotenv dotenv environ name :
  getenv (load_dotenv dotenv environ) name
  = match environ !! name with
    | Some v => Some v
    | None => dotenv !! name
    end.
Proof.
  unfold getenv, load_dotenv. rewrite lookup_union.
  destruct (environ !! name), (dotenv !! name); done.
Qed.

(** X15. With both secrets set and not empty, each taken from the
    process environment if it is there and from the .env file
    otherwise, the script starts the Flask thread, logs, and polls with
    the bot token, in this order and before any update is handled; and
    every request the handlers send carries the API key so read. *)
Theorem script_starts_bot (py : platform) (dotenv environ : gmap pystr pystr)
    (updates : list incoming) (w : world) (api tg : pystr) :
  match environ !! u "API_KEY" with
  | Some v => Some v
  | None => dotenv !! u "API_KEY"
  end = Some api ->
  api <> [] ->
  match environ !! u "TG_KEY" with
  | Some v => Some v
  | None => dotenv !! u "TG_KEY"
  end = Some tg ->
  tg <> [] ->
  exists w' evs,
    script py dotenv environ updates w = (Ok tt, w')
    /\ trace w'
       = trace w
         ++ [ ThreadStart (u "run_flask") true;
              Log INFO (u "Запуск Telegram-бота...");
              RunPolling tg ]
         ++ evs
    /\ Forall (sent_with api) (http_requests evs)
    /\ length (replies evs) = length (filter is_answered updates).
Proof.
  intros Hapi Hapi_ne Htg Htg_ne.
  unfold script, bind, eval, load_secrets.
  rewrite !getenv_load_dotenv, Hapi, Htg.
  destruct api as [| a api]; [done |]. destruct tg as [| t tg]; [done |].
  simpl. unfold main, run_polling, bind, logger_info. simpl.
  set (cfg := {| API_KEY := a :: api; TG_KEY := t :: tg |}).
  match goal with
  | |- context [process_updates py cfg updates ∅ ?w0] =>
      destruct (process_updates_run py cfg updates ∅ w0)
        as (sessions' & w' & evs & Hrun & Htrace & Hrep & _ & Hkey & _)
  end.
  exists w', evs. rewrite Hrun. split; [reflexivity |].
  split; [| done].
  rewrite Htrace. simpl. by rewrite <- !app_assoc.
Qed.

(** X16. A secret that is set to the empty string counts as missing,
    also when the process environment holds the empty value and the
    .env file a good one; [API_KEY] is checked first, so its message is
    the one raised whenever it is missing or empty, and the message for
    [TG_KEY] only when [API_KEY] is good.  In both cases nothing has
    happened when the script stops. *)
Theorem script_secret_errors (py : platform) (dotenv environ : gmap pystr pystr)
    (updates : list incoming) (w : world) :
  let secret name :=
    match environ !! name with
    | Some v => Some v
    | None => dotenv !! name
    end in
  (is_falsy (secret (u "API_KEY")) = true ->
   script py dotenv environ updates w
   = (Raise (ValueError (u "Не найден API_KEY в переменных окружения (.env)")),
      w))
  /\ (is_falsy (secret (u "API_KEY")) = false ->
      is_falsy (secret (u "TG_KEY")) = true ->
      script py dotenv environ updates w
      = (Raise (ValueError (u "Не найден TG_KEY в переменных окружения (.env)")),
         w)).
Proof.
  intros secret. unfold script, bind, eval, load_secrets.
  rewrite !getenv_load_dotenv. fold (secret (u "API_KEY")).
  fold (secret (u "TG_KEY")).
  split.
  - intros Hapi. by rewrite Hapi.
  - intros Hapi Htg. by rewrite Hapi, Htg.
Qed.

(** X17. The health server listens on all interfaces, on port 10000
    when [PORT] is set neither in the process environment nor in the
    .env file, and on the port written in [PORT] otherwise, the process
    environment winning over the .env file; when [PORT] is not an
    integer the thread ends with the exception of [int] before it has
    logged or started anything. *)
Theorem run_flask_port (int_of_str : pystr -> result Z)
    (dotenv environ : gmap pystr pystr) (t : list flask_event) :
  let port_text :=
    match environ !! u "PORT" with
    | Some v => Some v
    | None => dotenv !! u "PORT"
    end in
  let started port :=
    (Ok tt,
     t ++ [ FlaskLog INFO (u "Запуск Flask на порту " ++ decimal port);
            AppRun (u "0.0.0.0") port ]) in
  (port_text = None ->
   run_flask int_of_str (load_dotenv dotenv environ) t = started 10000%Z)
  /\ (forall text port,
        port_text = Some text -> int_of_str text = Ok port ->
        run_flask int_of_str (load_dotenv dotenv environ) t = started port)
  /\ (forall text e,
        port_text = Some text -> int_of_str text = Raise e ->
        run_flask int_of_str (load_dotenv dotenv environ) t = (Raise e, t)).
Proof.
  intros port_text started. unfold run_flask, bind, eval.
  pose proof (getenv_load_dotenv dotenv environ (u "PORT")) as Hport.
  unfold getenv in Hport. rewrite Hport. fold port_text.
  split; [| split].
  - intros ->. unfold started. by rewrite <- app_assoc.
  - intros text port -> ->. unfold started. by rewrite <- app_assoc.
  - by intros text e -> ->.
Qed.

(** ** The report, whatever the status and the kind of timestamp *)

(** X18. The status is checked by [raise_for_status] alone: a response
    with any status outside 400 to 599 (a 2xx, but also a 1xx or a 3xx
    that requests hands over) that carries the fields of a report is
    answered with the report, with the value stored under [grnd_level]
    or the placeholder as pressure, and nothing is logged.  With X3,
    this is exactly when a report is returned. *)
Theorem get_weather_report_if (py : platform) (key city : pystr) (w : world)
    (r : response) (data weather0 main wind sys : gmap pystr json)
    (others : list json) (description temp humidity speed sunset : json)
    (dt : datetime) :
  requests_get py weather_url (weather_params key city) = GetReturns r ->
  ~ (400 <= status_code r < 600)%Z ->
  body r = Some (JDict data) ->
  data !! u "weather" = Some (JList (JDict weather0 :: others)) ->
  weather0 !! u "description" = Some description ->
  data !! u "main" = Some (JDict main) ->
  main !! u "temp" = Some temp ->
  main !! u "humidity" = Some humidity ->
  data !! u "wind" = Some (JDict wind) ->
  wind !! u "speed" = Some speed ->
  data !! u "sys" = Some (JDict sys) ->
  sys !! u "sunset" = Some sunset ->
  fromtimestamp py sunset = Ok dt ->
  get_weather py key city w
  = (Ok (u "🌤 <b>Погода в " ++ city ++ u "</b>" ++ nl
         ++ u "Описание: " ++ format_value py description ++ nl
         ++ u "Температура: " ++ format_value py temp ++ u " °C" ++ nl
         ++ u "Влажность: " ++ format_value py humidity ++ u " %" ++ nl
         ++ u "Давление: "
         ++ format_value py (default (JStr (u "н/д")) (main !! u "grnd_level"))
         ++ u " гПа" ++ nl
         ++ u "Скорость ветра: " ++ format_value py speed ++ u " м/с" ++ nl
         ++ u "Закат: " ++ strftime_HM dt),
     emit_event (HttpGet weather_url (weather_params key city)) w).
Proof.
  intros Hget Hst Hbody Hweather Hdesc Hmain Htemp Hhum Hwind Hspeed Hsys
    Hsunset Hdt.
  unfold get_weather, try_except, get_weather_try, bind, in_world, http_get.
  simpl. rewrite Hget. simpl.
  rewrite raise_for_status_pass by done.
  unfold json_of. rewrite Hbody. simpl.
  rewrite Hweather. simpl. rewrite Hdesc, Hmain. simpl.
  rewrite Htemp, Hhum, Hwind. simpl. rewrite Hspeed, Hsys. simpl.
  rewrite Hsunset, Hdt. unfold ret. simpl.
  by destruct (main !! u "grnd_level").
Qed.

(** X19. Whenever [datetime.fromtimestamp] accepts a value (an integer,
    a boolean or a float), the time printed by [%H:%M] has exactly five
    characters: the two decimal digits of an hour below 24, a colon,
    and the two decimal digits of a minute below 60. *)
Theorem strftime_HM_shape (py : platform) (v : json) (dt : datetime) :
  fromtimestamp py v = Ok dt ->
  exists h1 h2 m1 m2 : N,
    strftime_HM dt = [48 + h1; 48 + h2; 58; 48 + m1; 48 + m2]%N
    /\ (h1 <= 9 /\ h2 <= 9 /\ m1 <= 9 /\ m2 <= 9)%N
    /\ (Z.of_N (10 * h1 + h2) = hour dt /\ hour dt < 24)%Z
    /\ (Z.of_N (10 * m1 + m2) = minute dt /\ minute dt < 60)%Z.
Proof.
  unfold fromtimestamp. intros Hdt.
  destruct (timestamp_seconds py v) as [t |]; [| discriminate].
  destruct (localtime_ok py t); [| discriminate].
  injection Hdt as <-.
  set (local := (t + utcoffset py t)%Z).
  destruct (hour_minute_bounds local) as [Hh Hm].
  unfold strftime_HM. simpl. fold local.
  set (hh := ((local / 3600) mod 24)%Z) in *.
  set (mm := ((local / 60) mod 60)%Z) in *.
  rewrite (fmt02_digits hh), (fmt02_digits mm) by lia.
  exists (Z.to_N (hh / 10)), (Z.to_N (hh mod 10)),
    (Z.to_N (mm / 10)), (Z.to_N (mm mod 10)).
  split; [done |].
  assert (0 <= hh / 10 < 3)%Z
    by (split; [apply Z.div_pos; lia | apply Z.div_lt_upper_bound; lia]).
  assert (0 <= mm / 10 < 6)%Z
    by (split; [apply Z.div_pos; lia | apply Z.div_lt_upper_bound; lia]).
  assert (0 <= hh mod 10 < 10)%Z by (apply Z.mod_pos_bound; lia).
  assert (0 <= mm mod 10 < 10)%Z by (apply Z.mod_pos_bound; lia).
  pose proof (Z.div_mod hh 10 ltac:(lia)) as Hhd.
  pose proof (Z.div_mod mm 10 ltac:(lia)) as Hmd.
  generalize dependent (hh / 10)%Z. generalize dependent (hh mod 10)%Z.
  generalize dependent (mm / 10)%Z. generalize dependent (mm mod 10)%Z.
  intros. lia.
Qed.

(** ** The further properties at sample inputs *)

(** X1 at a refused connection. *)
Lemma get_weather_request_failure_witness :
  let py := Demo.platform_with (GetRaises (u "Connection refused")) in
  requests_get py weather_url (weather_params Demo.key Demo.sochi)
  = GetRaises (u "Connection refused")
  /\ exists w' evs,
       get_weather py Demo.key Demo.sochi Demo.idle
       = (Ok (u "❌ Произошла ошибка: "
              ++ exc_str py (RequestFailure (u "Connection refused"))), w')
       /\ trace w' = trace Demo.idle ++ evs
       /\ user_data w' = user_data Demo.idle
       /\ logged ERROR evs
          = [u "Неожиданная ошибка при запросе погоды для " ++ Demo.sochi
             ++ u ": " ++ exc_str py (RequestFailure (u "Connection refused"))]
       /\ http_requests evs = [(weather_url, weather_params Demo.key Demo.sochi)].
Proof.
  intros py. split; [reflexivity |].
  exact (get_weather_request_failure py Demo.key Demo.sochi Demo.idle
           (u "Connection refused") eq_refl).
Defined.

(** X2 at a 200 answer with an empty body. *)
Lemma get_weather_body_not_json_witness :
  let r := Demo.answer 200 (u "OK") None in
  let py := Demo.platform_with (GetReturns r) in
  requests_get py weather_url (weather_params Demo.key Demo.sochi) = GetReturns r
  /\ ~ (400 <= status_code r < 600)%Z
  /\ body r = None
  /\ exists w' evs,
       get_weather py Demo.key Demo.sochi Demo.idle
       = (Ok (u "❌ Произошла ошибка: " ++ exc_str py JSONDecodeError), w')
       /\ trace w' = trace Demo.idle ++ evs
       /\ logged ERROR evs
          = [u "Неожиданная ошибка при запросе погоды для " ++ Demo.sochi
             ++ u ": " ++ exc_str py JSONDecodeError].
Proof.
  intros r py.
  assert (Hst : ~ (400 <= status_code r < 600)%Z) by (simpl; lia).
  split; [reflexivity |]. split; [exact Hst |]. split; [reflexivity |].
  exact (get_weather_body_not_json py Demo.key Demo.sochi Demo.idle r
           eq_refl Hst eq_refl).
Defined.

(** X3 at the sample report. *)
Lemma get_weather_report_only_if_witness :
  let r := Demo.answer 200 (u "OK") (Some Demo.report) in
  let py := Demo.platform_with (GetReturns r) in
  let request := HttpGet weather_url (weather_params Demo.key Demo.sochi) in
  get_weather py Demo.key Demo.sochi Demo.idle
  = (Ok Samples.report_text, emit_event request Demo.idle)
  /\ (forall rest, Samples.report_text <> u "❌" ++ rest)
  /\ exists r data weather0 others main wind sys description temp humidity
            speed sunset dt,
       requests_get py weather_url (weather_params Demo.key Demo.sochi)
       = GetReturns r
       /\ ~ (400 <= status_code r < 600)%Z
       /\ body r = Some (JDict data)
       /\ data !! u "weather" = Some (JList (JDict weather0 :: others))
       /\ weather0 !! u "description" = Some description
       /\ data !! u "main" = Some (JDict main)
       /\ main !! u "temp" = Some temp
       /\ main !! u "humidity" = Some humidity
       /\ data !! u "wind" = Some (JDict wind)
       /\ wind !! u "speed" = Some speed
       /\ data !! u "sys" = Some (JDict sys)
       /\ sys !! u "sunset" = Some sunset
       /\ fromtimestamp py sunset = Ok dt
       /\ emit_event request Demo.idle = emit_event request Demo.idle.
Proof.
  intros r py request.
  assert (Hrun : get_weather py Demo.key Demo.sochi Demo.idle
                 = (Ok Samples.report_text, emit_event request Demo.idle))
    by (vm_compute; reflexivity).
  assert (Hreport : forall rest, Samples.report_text <> u "❌" ++ rest).
  { intros rest Heq. vm_compute in Heq. discriminate. }
  split; [exact Hrun |]. split; [exact Hreport |].
  exact (get_weather_report_only_if py Demo.key Demo.sochi Demo.idle
           (emit_event request Demo.idle) Samples.report_text Hrun Hreport).
Defined.

(** X4 at a 200 answer whose object has no [weather]. *)
Lemma get_weather_missing_key_witness :
  let data : gmap pystr json := {[ u "cod" := JInt 200 ]} in
  let r := Demo.answer 200 (u "OK") (Some (JDict data)) in
  let py := Demo.platform_with (GetReturns r) in
  requests_get py weather_url (weather_params Demo.key Demo.sochi) = GetReturns r
  /\ ~ (400 <= status_code r < 600)%Z
  /\ body r = Some (JDict data)
  /\ (data !! u "weather" = None \/ data !! u "main" = None
      \/ data !! u "wind" = None \/ data !! u "sys" = None)
  /\ exists e w' evs,
       get_weather py Demo.key Demo.sochi Demo.idle
       = (Ok (u "❌ Произошла ошибка: " ++ exception_text py e), w')
       /\ is_HTTPError e = false
       /\ trace w' = trace Demo.idle ++ evs
       /\ logged ERROR evs
          = [u "Неожиданная ошибка при запросе погоды для " ++ Demo.sochi
             ++ u ": " ++ exception_text py e].
Proof.
  intros data r py.
  assert (Hst : ~ (400 <= status_code r < 600)%Z) by (simpl; lia).
  assert (Hmissing : data !! u "weather" = None \/ data !! u "main" = None
                     \/ data !! u "wind" = None \/ data !! u "sys" = None)
    by (left; vm_compute; reflexivity).
  split; [reflexivity |]. split; [exact Hst |]. split; [reflexivity |].
  split; [exact Hmissing |].
  exact (get_weather_missing_key py Demo.key Demo.sochi Demo.idle r data
           eq_refl Hst eq_refl Hmissing).
Defined.

(** X5 at a 200 answer with an empty [weather] list. *)
Lemma get_weather_empty_weather_list_witness :
  let data : gmap pystr json := {[ u "weather" := JList [] ]} in
  let r := Demo.answer 200 (u "OK") (Some (JDict data)) in
  let py := Demo.platform_with (GetReturns r) in
  requests_get py weather_url (weather_params Demo.key Demo.sochi) = GetReturns r
  /\ ~ (400 <= status_code r < 600)%Z
  /\ body r = Some (JDict data)
  /\ data !! u "weather" = Some (JList [])
  /\ exists w' evs,
       get_weather py Demo.key Demo.sochi Demo.idle
       = (Ok (u "❌ Произошла ошибка: " ++ exc_str py IndexError), w')
       /\ trace w' = trace Demo.idle ++ evs
       /\ logged ERROR evs
          = [u "Неожиданная ошибка при запросе погоды для " ++ Demo.sochi
             ++ u ": " ++ exc_str py IndexError].
Proof.
  intros data r py.
  assert (Hst : ~ (400 <= status_code r < 600)%Z) by (simpl; lia).
  assert (Hweather : data !! u "weather" = Some (JList []))
    by (vm_compute; reflexivity).
  split; [reflexivity |]. split; [exact Hst |]. split; [reflexivity |].
  split; [exact Hweather |].
  exact (get_weather_empty_weather_list py Demo.key Demo.sochi Demo.idle r data
           eq_refl Hst eq_refl Hweather).
Defined.

(** X10 at [/weather Нижний Новгород] and the message [Нижний Новгород]. *)
Lemma weather_command_as_free_text_witness :
  let py := Demo.platform_with
              (GetReturns (Demo.answer 404 (u "Not Found") None)) in
  let command := {| args := [u "Нижний"; u "Новгород"] |} in
  let plain := {| args := [] |} in
  let update := Samples.from (u "/weather Нижний Новгород") in
  let update' := Samples.from (u "Нижний Новгород") in
  let city := join (u " ") (args command) in
  args command <> []
  /\ Forall is_word (args command)
  /\ message_text update' = join (u " ") (args command)
  /\ exists info w1,
       get_weather py Demo.key city Demo.idle = (Ok info, w1)
       /\ weather py Demo.key update command Demo.idle
          = (Ok tt, {| trace := trace w1 ++ [ReplyText info None HTML];
                       user_data := user_data Demo.idle |})
       /\ handle_message py Demo.key update' plain Demo.idle
          = (Ok tt,
             {| trace := trace w1
                         ++ [ ReplyText info None HTML;
                              Log INFO
                                (u "Пользователь "
                                 ++ decimal (effective_user_id update')
                                 ++ u " запросил погоду для " ++ city) ];
                user_data := <[u "last_city" := city]> (user_data Demo.idle) |}).
Proof.
  intros py command plain update update' city.
  assert (Hne : args command <> []) by discriminate.
  assert (Hwords : Forall is_word (args command)).
  { repeat apply Forall_cons_2; try apply Forall_nil_2;
      (split; [intros Heq; vm_compute in Heq; discriminate |]);
      vm_compute; repeat constructor. }
  assert (Htext : message_text update' = join (u " ") (args command))
    by (vm_compute; reflexivity).
  split; [exact Hne |]. split; [exact Hwords |]. split; [exact Htext |].
  exact (weather_command_as_free_text py Demo.key update update' command plain
           Demo.idle Hne Hwords Htext).
Defined.

(** X15 with the API key in the process environment, which wins over
    the one of the .env file, and the token in the .env file only. *)
Lemma script_starts_bot_witness :
  let py := Demo.platform_with
              (GetReturns (Demo.answer 404 (u "Not Found") None)) in
  let environ : gmap pystr pystr := {[ u "API_KEY" := Demo.key ]} in
  let dotenv : gmap pystr pystr :=
    {[ u "API_KEY" := u "stale"; u "TG_KEY" := Samples.token ]} in
  let updates := [Text (Samples.from (u "Сочи")) {| args := [] |}] in
  match environ !! u "API_KEY" with
  | Some v => Some v
  | None => dotenv !! u "API_KEY"
  end = Some Demo.key
  /\ Demo.key <> []
  /\ match environ !! u "TG_KEY" with
     | Some v => Some v
     | None => dotenv !! u "TG_KEY"
     end = Some Samples.token
  /\ Samples.token <> []
  /\ exists w' evs,
       script py dotenv environ updates Demo.idle = (Ok tt, w')
       /\ trace w'
          = trace Demo.idle
            ++ [ ThreadStart (u "run_flask") true;
                 Log INFO (u "Запуск Telegram-бота...");
                 RunPolling Samples.token ]
            ++ evs
       /\ Forall (sent_with Demo.key) (http_requests evs)
       /\ length (replies evs) = length (filter is_answered updates).
Proof.
  intros py environ dotenv updates.
  assert (Hapi : match environ !! u "API_KEY" with
                 | Some v => Some v
                 | None => dotenv !! u "API_KEY"
                 end = Some Demo.key) by (vm_compute; reflexivity).
  assert (Hapi_ne : Demo.key <> [])
    by (intros Heq; vm_compute in Heq; discriminate).
  assert (Htg : match environ !! u "TG_KEY" with
                | Some v => Some v
                | None => dotenv !! u "TG_KEY"
                end = Some Samples.token) by (vm_compute; reflexivity).
  assert (Htg_ne : Samples.token <> [])
    by (intros Heq; vm_compute in Heq; discriminate).
  split; [exact Hapi |]. split; [exact Hapi_ne |].
  split; [exact Htg |]. split; [exact Htg_ne |].
  exact (script_starts_bot py dotenv environ updates Demo.idle Demo.key
           Samples.token Hapi Hapi_ne Htg Htg_ne).
Defined.

(** X16 with an empty [API_KEY] in the process environment over a good
    one in the .env file, and with a good [API_KEY] and no [TG_KEY]. *)
Lemma script_secret_errors_witness :
  let py := Demo.platform_with (GetRaises (u "unreachable")) in
  let dotenv : gmap pystr pystr :=
    {[ u "API_KEY" := Demo.key; u "TG_KEY" := Samples.token ]} in
  let masked : gmap pystr pystr := {[ u "API_KEY" := [] ]} in
  let partial : gmap pystr pystr := {[ u "API_KEY" := Demo.key ]} in
  let secret (environ dotenv : gmap pystr pystr) name :=
    match environ !! name with
    | Some v => Some v
    | None => dotenv !! name
    end in
  (is_falsy (secret masked dotenv (u "API_KEY")) = true
   /\ script py dotenv masked [] Demo.idle
      = (Raise (ValueError
                  (u "Не найден API_KEY в переменных окружения (.env)")),
         Demo.idle))
  /\ (is_falsy (secret partial ∅ (u "API_KEY")) = false
      /\ is_falsy (secret partial ∅ (u "TG_KEY")) = true
      /\ script py ∅ partial [] Demo.idle
         = (Raise (ValueError
                     (u "Не найден TG_KEY в переменных окружения (.env)")),
            Demo.idle)).
Proof.
  intros py dotenv masked partial secret.
  assert (Hmasked : is_falsy (secret masked dotenv (u "API_KEY")) = true)
    by (vm_compute; reflexivity).
  assert (Hapi : is_falsy (secret partial ∅ (u "API_KEY")) = false)
    by (vm_compute; reflexivity).
  assert (Htg : is_falsy (secret partial ∅ (u "TG_KEY")) = true)
    by (vm_compute; reflexivity).
  split.
  - split; [exact Hmasked |].
    exact (proj1 (script_secret_errors py dotenv masked [] Demo.idle) Hmasked).
  - split; [exact Hapi |]. split; [exact Htg |].
    exact (proj2 (script_secret_errors py ∅ partial [] Demo.idle) Hapi Htg).
Defined.

(** X17 with no [PORT], with [PORT=8080] in the .env file, and with a
    [PORT] that is no number. *)
Lemma run_flask_port_witness :
  let good : gmap pystr pystr := {[ u "PORT" := u "8080" ]} in
  let bad : gmap pystr pystr := {[ u "PORT" := u "http" ]} in
  let started port :=
    (Ok tt,
     [ FlaskLog INFO (u "Запуск Flask на порту " ++ decimal port);
       AppRun (u "0.0.0.0") port ]) in
  run_flask Samples.int_of_digits (load_dotenv ∅ ∅) [] = started 10000%Z
  /\ run_flask Samples.int_of_digits (load_dotenv good ∅) [] = started 8080%Z
  /\ run_flask Samples.int_of_digits (load_dotenv ∅ bad) []
     = (Raise (ValueError (u "invalid literal for int() with base 10")), []).
Proof.
  intros good bad started.
  split; [| split].
  - exact (proj1 (run_flask_port Samples.int_of_digits ∅ ∅ []) eq_refl).
  - refine (proj1 (proj2 (run_flask_port Samples.int_of_digits good ∅ []))
              (u "8080") 8080%Z _ _); vm_compute; reflexivity.
  - refine (proj2 (proj2 (run_flask_port Samples.int_of_digits ∅ bad []))
              (u "http") _ _ _); vm_compute; reflexivity.
Defined.

(** X18 at a 304 answer that carries the sample report. *)
Lemma get_weather_report_if_witness :
  let r := Demo.answer 304 (u "Not Modified") (Some Demo.report) in
  let py := Demo.platform_with (GetReturns r) in
  let dt := {| hour := 1; minute := 13 |} in
  requests_get py weather_url (weather_params Demo.key Demo.sochi) = GetReturns r
  /\ ~ (400 <= status_code r < 600)%Z
  /\ body r = Some (JDict Demo.report_data)
  /\ Demo.report_data !! u "weather" = Some (JList [JDict Demo.report_weather0])
  /\ Demo.report_weather0 !! u "description" = Some (JStr (u "ясно"))
  /\ Demo.report_data !! u "main" = Some (JDict Demo.report_main)
  /\ Demo.report_main !! u "temp" = Some (JInt 12)
  /\ Demo.report_main !! u "humidity" = Some (JInt 80)
  /\ Demo.report_data !! u "wind" = Some (JDict Demo.report_wind)
  /\ Demo.report_wind !! u "speed" = Some (JInt 3)
  /\ Demo.report_data !! u "sys" = Some (JDict Demo.report_sys)
  /\ Demo.report_sys !! u "sunset" = Some (JInt 1700000000)
  /\ fromtimestamp py (JInt 1700000000) = Ok dt
  /\ get_weather py Demo.key Demo.sochi Demo.idle
     = (Ok Samples.report_text,
        emit_event (HttpGet weather_url (weather_params Demo.key Demo.sochi))
          Demo.idle).
Proof.
  intros r py dt.
  assert (Hst : ~ (400 <= status_code r < 600)%Z) by (simpl; lia).
  pose proof (get_weather_report_if py Demo.key Demo.sochi Demo.idle r
                Demo.report_data Demo.report_weather0 Demo.report_main
                Demo.report_wind Demo.report_sys []
                (JStr (u "ясно")) (JInt 12) (JInt 80) (JInt 3)
                (JInt 1700000000) dt
                eq_refl Hst eq_refl
                ltac:(vm_compute; reflexivity) ltac:(vm_compute; reflexivity)
                ltac:(vm_compute; reflexivity) ltac:(vm_compute; reflexivity)
                ltac:(vm_compute; reflexivity) ltac:(vm_compute; reflexivity)
                ltac:(vm_compute; reflexivity) ltac:(vm_compute; reflexivity)
                ltac:(vm_compute; reflexivity) ltac:(vm_compute; reflexivity))
    as Hrun.
  repeat (split; [first [exact Hst | vm_compute; reflexivity] |]).
  rewrite Hrun. vm_compute. reflexivity.
Defined.

(** X19 at the sunset of the sample report, in UTC+3. *)
Lemma strftime_HM_shape_witness :
  let py := Demo.platform_with (GetRaises (u "unused")) in
  let dt := {| hour := 1; minute := 13 |} in
  fromtimestamp py (JInt 1700000000) = Ok dt
  /\ exists h1 h2 m1 m2 : N,
       strftime_HM dt = [48 + h1; 48 + h2; 58; 48 + m1; 48 + m2]%N
       /\ (h1 <= 9 /\ h2 <= 9 /\ m1 <= 9 /\ m2 <= 9)%N
       /\ (Z.of_N (10 * h1 + h2) = hour dt /\ hour dt < 24)%Z
       /\ (Z.of_N (10 * m1 + m2) = minute dt /\ minute dt < 60)%Z.
Proof.
  intros py dt.
  assert (Hdt : fromtimestamp py (JInt 1700000000) = Ok dt)
    by (vm_compute; reflexivity).
  split; [exact Hdt |].
  exact (strftime_HM_shape py (JInt 1700000000) dt Hdt).
Defined.
